(* Shallow embedding of src/azure-functions/function_app.py
   (solar irradiance ingestion, summaries, forecast and read API).

   Modelling conventions
   - Python floats coming from the warehouse or the weather API are modelled
     as rationals [Q]; Python ints as [Z]; [None] as [option].
   - Python exceptions are an explicit error monad [exc]; only subclasses of
     [Exception] are raised by the modelled code, and [except Exception]
     catches every one of them.
   - External services (HTTP, Snowflake) are parameters of Sections: their
     answers, successful or failing, are universally quantified.
   - A Python [str] is its UTF-8 encoding; the Unicode tables used by
     [str.strip()], [int()], [\d] and [strptime] are those of Python 3.11
     (Unicode 14.0.0).
   - Clocks are parameters: [date.today()] on the host, [CURRENT_DATE()] in
     a Snowflake session and [datetime.utcnow().date()] are distinct dates
     unless a statement assumes them equal. *)

From Stdlib Require Import ZArith QArith List String Ascii Bool Lia Lqa.
From Stdlib Require Import Sorting.Sorted Structures.OrdersEx.
Import ListNotations.
Open Scope Z_scope.
Set Warnings "-register-all".

(* ------------------------------------------------------------------ *)
(** * Python exceptions *)

Inductive py_error :=
| ValueError
| TypeError
| KeyError
| IndexError
| AttributeError
| RuntimeError
| HTTPError        (* requests: raise_for_status *)
| RequestTimeout   (* requests: timeout / connection failure *)
| OtherError (msg : string).

Inductive exc (A : Type) :=
| Ok (a : A)
| Raise (e : py_error).
Arguments Ok {A} a.
Arguments Raise {A} e.

Definition exc_bind {A B} (m : exc A) (f : A -> exc B) : exc B :=
  match m with
  | Ok a => f a
  | Raise e => Raise e
  end.

Notation "x <- m ;; k" := (exc_bind m (fun x => k))
  (at level 61, m at next level, right associativity).

(** [try: body except Exception: handler] *)
Definition try_except {A} (body : exc A) (handler : py_error -> exc A) : exc A :=
  match body with
  | Ok a => Ok a
  | Raise e => handler e
  end.

(* ------------------------------------------------------------------ *)
(** * Python strings *)

(** Strings. A Python [str] is represented by its UTF-8 encoding; a Python
    character is a piece cut by [utf8_chars] (a byte that starts no valid
    sequence is a piece of its own, with no code point). The byte order of
    UTF-8 strings is the code-point order of the characters. *)
Definition byte_of (c : ascii) : Z := Z.of_nat (nat_of_ascii c).

Definition is_cont (c : ascii) : bool := (128 <=? byte_of c) && (byte_of c <? 192).

Fixpoint utf8_chars (l : list ascii) : list (list ascii) :=
  match l with
  | [] => []
  | b :: r =>
      if byte_of b <? 192 then [b] :: utf8_chars r
      else if byte_of b <? 224 then
        match r with
        | c1 :: r1 => if is_cont c1 then [b; c1] :: utf8_chars r1 else [b] :: utf8_chars r
        | [] => [[b]]
        end
      else if byte_of b <? 240 then
        match r with
        | c1 :: c2 :: r2 =>
            if is_cont c1 && is_cont c2 then [b; c1; c2] :: utf8_chars r2
            else [b] :: utf8_chars r
        | _ => [b] :: utf8_chars r
        end
      else if byte_of b <? 248 then
        match r with
        | c1 :: c2 :: c3 :: r3 =>
            if is_cont c1 && is_cont c2 && is_cont c3 then [b; c1; c2; c3] :: utf8_chars r3
            else [b] :: utf8_chars r
        | _ => [b] :: utf8_chars r
        end
      else [b] :: utf8_chars r
  end.

(** [ord(ch)]; -1 for a piece that is not a valid sequence. *)
Definition char_cp (ch : list ascii) : Z :=
  match ch with
  | [b] => if byte_of b <? 128 then byte_of b else -1
  | [b; c1] => (byte_of b - 192) * 64 + (byte_of c1 - 128)
  | [b; c1; c2] => ((byte_of b - 224) * 64 + (byte_of c1 - 128)) * 64 + (byte_of c2 - 128)
  | [b; c1; c2; c3] =>
      (((byte_of b - 240) * 64 + (byte_of c1 - 128)) * 64 + (byte_of c2 - 128)) * 64
      + (byte_of c3 - 128)
  | _ => -1
  end.

(** [[ord(ch) for ch in s]] *)
Definition code_points (s : string) : list Z :=
  map char_cp (utf8_chars (list_ascii_of_string s)).

(** A piece cut by [utf8_chars]: one byte, or a lead byte and more. *)
Definition piece_ok (c : list ascii) : Prop :=
  match c with [] => False | [_] => True | b :: _ => is_cont b = false end.

(** A byte list that does not start with a continuation byte. *)
Definition head_not_cont (q : list ascii) : Prop :=
  match q with [] => True | c :: _ => is_cont c = false end.

(** The characters of [str.isspace()] / [Py_UNICODE_ISSPACE] (Python 3.11,
    Unicode 14.0.0): the white space of the Unicode database together with
    the separators U+001C..U+001F. *)
Definition py_whitespace : list Z :=
  [9; 10; 11; 12; 13; 28; 29; 30; 31; 32; 133; 160; 5760; 8192; 8193; 8194;
   8195; 8196; 8197; 8198; 8199; 8200; 8201; 8202; 8232; 8233; 8239; 8287;
   12288].

Definition is_space (c : Z) : bool := existsb (Z.eqb c) py_whitespace.

Fixpoint drop_spaces (l : list (list ascii)) : list (list ascii) :=
  match l with
  | ch :: r => if is_space (char_cp ch) then drop_spaces r else l
  | [] => []
  end.

(** [str.strip()]: drops the leading and the trailing whitespace characters. *)
Definition py_strip (s : string) : string :=
  string_of_list_ascii
    (List.concat (rev (drop_spaces (rev (drop_spaces (utf8_chars (list_ascii_of_string s))))))).

(* ------------------------------------------------------------------ *)
(** * Summarization helpers (function_app.py, lines 160-199) *)

(** [_pct_change(today_val, base_val)]; [base_val in (None, 0)] compares
    by value, so every value equal to 0 counts as zero. The
    [ZeroDivisionError] handler is unreachable once the guard has passed. *)
Definition _pct_change (today_val base_val : option Q) : option Q :=
  match today_val, base_val with
  | None, _ => None
  | _, None => None
  | Some t, Some b =>
      if Qeq_bool b 0 then None
      else Some ((t - b) / b * 100)%Q
  end.

Inductive trend := Near | Above | Below.

(** Python [<] on floats *)
Definition Qlt_bool (x y : Q) : bool := negb (Qle_bool y x).

(** trend = "near"; if pct > 10: "above"; if pct < -10: "below" *)
Definition classify (pct : Q) : trend :=
  let t1 := Near in
  let t2 := if Qlt_bool 10 pct then Above else t1 in
  if Qlt_bool pct (-10) then Below else t2.

(** [x or 0] for an optional float *)
Definition or0 (x : option Q) : Q :=
  match x with Some v => v | None => 0%Q end.

(** The three f-string shapes produced by [heuristic_summary]; the numbers
    are kept as the values interpolated (rounding and printing are only
    presentation). *)
Inductive summary_text :=
| NoDataYet (zip : string)
| FirstDay (zip : string) (ghi dni cloud : Q)
| TrendText (zip : string) (t : trend) (pct ghi dni cloud : Q).

Definition heuristic_summary (zip_code : string) (ghi_mean dni_mean cloud_mean : option Q)
    (pct_vs_base : option Q) : summary_text :=
  match ghi_mean with
  | None => NoDataYet zip_code
  | Some g =>
      match pct_vs_base with
      | None => FirstDay zip_code g (or0 dni_mean) (or0 cloud_mean)
      | Some p => TrendText zip_code (classify p) p g (or0 dni_mean) (or0 cloud_mean)
      end
  end.

(** Output of the summary generator: the service's text or the heuristic one. *)
Inductive summary_out :=
| Narrative (s : string)
| Heuristic (t : summary_text).

(** The values interpolated in the prompt f-string. *)
Record prompt := mk_prompt {
  pr_zip : string; pr_ghi : Q; pr_dni : Q; pr_cloud : Q; pr_pct : Q }.

(** [f"{x:+.1f}"] raises [TypeError] when [x] is [None]. *)
Definition fmt_signed (x : option Q) : exc Q :=
  match x with
  | Some v => Ok v
  | None => Raise TypeError
  end.

Section Narrative.
(** [USE_AOAI]: all three service settings are present. *)
Variable USE_AOAI : bool.
(** [requests.post(...)], [raise_for_status()] and
    [r.json()["choices"][0]["message"]["content"].strip()]. *)
Variable aoai_post : prompt -> exc string.

Definition aoai_summary_or_heuristic (zip_code : string)
    (ghi_mean dni_mean cloud_mean pct_vs_base : option Q) : exc summary_out :=
  if negb USE_AOAI then
    Ok (Heuristic (heuristic_summary zip_code ghi_mean dni_mean cloud_mean pct_vs_base))
  else
    try_except
      (p <- fmt_signed pct_vs_base ;;
       let pr := mk_prompt zip_code (or0 ghi_mean) (or0 dni_mean) (or0 cloud_mean) p in
       content <- aoai_post pr ;;
       Ok (Narrative content))
      (fun _ => Ok (Heuristic
         (heuristic_summary zip_code ghi_mean dni_mean cloud_mean pct_vs_base))).
End Narrative.

(* ------------------------------------------------------------------ *)
(** * Weather fetch and record builder (function_app.py, lines 39-102) *)

(** Values produced by [r.json()]. *)
Inductive json :=
| JNull
| JBool (b : bool)
| JInt (z : Z)
| JFloat (q : Q)
| JStr (s : string)
| JArr (l : list json)
| JObj (kv : list (string * json)).

(** [isinstance(v, (int, float))]; a Python [bool] is an [int]. *)
Definition is_numeric (v : json) : bool :=
  match v with
  | JBool _ | JInt _ | JFloat _ => true
  | _ => false
  end.

Definition num_value (v : json) : Q :=
  match v with
  | JBool b => if b then 1%Q else 0%Q
  | JInt z => inject_Z z
  | JFloat q => q
  | _ => 0%Q
  end.

(** Iterating [values or []]: [None] and falsy values give no element;
    a string yields its characters, a dict its keys, any other truthy
    scalar is not iterable. *)
Definition py_iter_or_empty (values : option json) : exc (list json) :=
  match values with
  | None | Some JNull => Ok []
  | Some (JArr l) => Ok l
  | Some (JStr s) => Ok (map (fun c => JStr (string_of_list_ascii c)) (utf8_chars (list_ascii_of_string s)))
  | Some (JObj kv) => Ok (map (fun p => JStr (fst p)) kv)
  | Some (JBool false) => Ok []
  | Some (JInt z) => if Z.eqb z 0 then Ok [] else Raise TypeError
  | Some (JFloat q) => if Qeq_bool q 0 then Ok [] else Raise TypeError
  | Some (JBool true) => Raise TypeError
  end.

(** [l[i:]] with Python's clamping of negative and out-of-range starts. *)
Definition py_slice_from {A} (i : Z) (l : list A) : list A :=
  let n := Z.of_nat (List.length l) in
  let start := if i <? 0 then Z.max 0 (n + i) else Z.min i n in
  skipn (Z.to_nat start) l.

(** [sum(xs)] *)
Definition py_sum (xs : list Q) : Q := fold_left Qplus xs 0%Q.

Definition mean_last24 (values : option json) : exc Q :=
  it <- py_iter_or_empty values ;;
  let vals := map num_value (filter is_numeric it) in
  match vals with
  | [] => Ok 0%Q
  | _ =>
      let take := Z.min 24 (Z.of_nat (List.length vals)) in
      let slice24 := py_slice_from (- take) vals in
      Ok (py_sum slice24 / inject_Z (Z.of_nat (List.length slice24)))%Q
  end.

(** [d.get(k)] / [d.get(k, default)]: [AttributeError] on a non-dict. *)
Definition json_get (d : json) (k : string) : exc (option json) :=
  match d with
  | JObj kv =>
      Ok (match find (fun p => String.eqb (fst p) k) kv with
          | Some (_, v) => Some v
          | None => None
          end)
  | _ => Raise AttributeError
  end.

Definition json_get_default (d : json) (k : string) (dflt : json) : exc json :=
  o <- json_get d k ;;
  Ok (match o with Some v => v | None => dflt end).

(** [d[k]] *)
Definition json_index (d : json) (k : string) : exc json :=
  match d with
  | JObj kv =>
      match find (fun p => String.eqb (fst p) k) kv with
      | Some (_, v) => Ok v
      | None => Raise KeyError
      end
  | _ => Raise TypeError
  end.

(** Python truthiness of a JSON value *)
Definition json_truthy (v : json) : bool :=
  match v with
  | JNull => false
  | JBool b => b
  | JInt z => negb (Z.eqb z 0)
  | JFloat q => negb (Qeq_bool q 0)
  | JStr s => negb (String.eqb s EmptyString)
  | JArr l => match l with [] => false | _ => true end
  | JObj kv => match kv with [] => false | _ => true end
  end.

Record daily_means := mk_means {
  m_GHI : Q; m_DNI : Q; m_DHI : Q; m_CLOUD_COVER : Q; m_TEMP_C : Q }.

Record obs_record := mk_record {
  OBS_DATE : Z;         (* date.today() as an ordinal day number *)
  ZIP : string;
  GHI : Q; DNI : Q; DHI : Q; CLOUD_COVER : Q; TEMP_C : Q;
  SOURCE : string }.

Section Fetch.
(** [requests.get(...)], [raise_for_status()] and [r.json()] for the
    geocoding and the forecast service. *)
Variable http_get_zip : string -> exc json.
Variable http_get_meteo : Q -> Q -> exc json.
(** Python's [float(x)] conversion of a JSON value. *)
Variable py_float : json -> exc Q.

Definition _zip_to_latlon (zip_code : string) : exc (Q * Q) :=
  r <- http_get_zip (py_strip zip_code) ;;
  p <- json_get_default r "places" (JArr []) ;;
  match p with
  | JArr (p0 :: _) =>
      lat <- (j <- json_index p0 "latitude" ;; py_float j) ;;
      lon <- (j <- json_index p0 "longitude" ;; py_float j) ;;
      Ok (lat, lon)
  | JObj (_ :: _) => Raise KeyError           (* p[0] on a dict *)
  | _ => if json_truthy p then Raise TypeError else Raise RuntimeError
  end.

Definition _open_meteo_daily_means (lat lon : Q) : exc daily_means :=
  r <- http_get_meteo lat lon ;;
  h <- json_get_default r "hourly" (JObj []) ;;
  sw <- json_get h "shortwave_radiation" ;; ghi <- mean_last24 sw ;;
  dr <- json_get h "direct_radiation" ;; dni <- mean_last24 dr ;;
  df <- json_get h "diffuse_radiation" ;; dhi <- mean_last24 df ;;
  cc <- json_get h "cloudcover" ;; cloud <- mean_last24 cc ;;
  tc <- json_get h "temperature_2m" ;; temp <- mean_last24 tc ;;
  Ok (mk_means ghi dni dhi cloud temp).

Definition fallback_record (today : Z) (zip_code : string) : obs_record :=
  mk_record today (py_strip zip_code) 0 0 0 0 20 "FALLBACK".

Definition fetch_daily_record (today : Z) (zip_code : string) : exc obs_record :=
  try_except
    (ll <- _zip_to_latlon zip_code ;;
     m <- _open_meteo_daily_means (fst ll) (snd ll) ;;
     Ok (mk_record today (py_strip zip_code)
           (m_GHI m) (m_DNI m) (m_DHI m) (m_CLOUD_COVER m) (m_TEMP_C m) "OPEN_METEO"))
    (fun _ => Ok (fallback_record today zip_code)).
End Fetch.

(* ------------------------------------------------------------------ *)
(** * Forecast writer (function_app.py, lines 131-158)

    The warehouse tables are lists of rows; dates are ordinal day numbers,
    so [DATEADD(day, k, CURRENT_DATE())] is [today + k]. *)

Record fcst_row := mk_fcst {
  f_ZIP : string; FCST_DATE : Z; GHI_PREDICTED : Q; METHOD : string }.

Record warehouse := mk_wh {
  SOLAR_OBS : list obs_record;    (* RAW.SOLAR_OBS *)
  FORECAST_7D : list fcst_row }.  (* MART.FORECAST_7D *)

(** [AVG(GHI)] over a non-empty group *)
Definition sql_avg (xs : list Q) : Q :=
  (py_sum xs / inject_Z (Z.of_nat (List.length xs)))%Q.

(** [SELECT ZIP, AVG(GHI) ... GROUP BY ZIP]: one row per distinct ZIP
    (listed in order of first occurrence). *)
Definition group_avg_ghi (rows : list obs_record) : list (string * Q) :=
  map (fun z => (z, sql_avg (map GHI (filter (fun o => String.eqb (ZIP o) z) rows))))
      (nodup string_dec (map ZIP rows)).

(** [SELECT DATEADD(day, seq4()+1, CURRENT_DATE()) FROM TABLE(GENERATOR(ROWCOUNT => n))] *)
Definition gen_dates (today : Z) (n : nat) : list Z :=
  map (fun k => today + Z.of_nat k + 1) (seq 0 n).

Definition upsert_forecast_7d (today : Z) (w : warehouse) : warehouse :=
  (* DELETE ... WHERE FCST_DATE >= DATEADD(day, 1, CURRENT_DATE()) *)
  let kept := filter (fun r => negb (today + 1 <=? FCST_DATE r)) (FORECAST_7D w) in
  (* last7: OBS_DATE >= DATEADD(day, -6, CURRENT_DATE()) GROUP BY ZIP *)
  let last7 := group_avg_ghi (filter (fun o => today - 6 <=? OBS_DATE o) (SOLAR_OBS w)) in
  let dates := gen_dates today 7 in
  (* last7 CROSS JOIN dates *)
  let inserted :=
    flat_map (fun l => map (fun d => mk_fcst (fst l) d (snd l) "7d_ma") dates) last7 in
  mk_wh (SOLAR_OBS w) (kept ++ inserted).

(* ------------------------------------------------------------------ *)
(** * Read API: request parsing helpers *)

(** The characters of Unicode category Nd (Python 3.11, Unicode 14.0.0)
    come in runs of ten, [0] to [9]; the first code point of each run. *)
Definition decimal_zeros : list Z :=
  [48; 1632; 1776; 1984; 2406; 2534; 2662; 2790; 2918; 3046; 3174; 3302;
   3430; 3558; 3664; 3792; 3872; 4160; 4240; 6112; 6160; 6470; 6608; 6784;
   6800; 6992; 7088; 7232; 7248; 42528; 43216; 43264; 43472; 43504; 43600;
   44016; 65296; 66720; 68912; 69734; 69872; 69942; 70096; 70384; 70736;
   70864; 71248; 71360; 71472; 71904; 72016; 72784; 73040; 73120; 92768;
   92864; 93008; 120782; 120792; 120802; 120812; 120822; 123200; 123632;
   125264; 130032].

(** [unicodedata.decimal(ch)] / [Py_UNICODE_TODECIMAL]; [None] for -1. *)
Definition decimal_value (c : Z) : option Z :=
  match find (fun z => (z <=? c) && (c <? z + 10)) decimal_zeros with
  | Some z => Some (c - z)
  | None => None
  end.

(** Characters matched by [\d] in a [str] pattern. *)
Definition is_decimal (c : Z) : bool :=
  match decimal_value c with Some _ => true | None => false end.

(** [_PyUnicode_TransformDecimalAndSpaceToASCII], applied by [int()] to a
    non-ASCII string: characters below 127 are kept, whitespace becomes
    [' '], a decimal digit its ASCII digit; any other character becomes
    ['?'] and ends the copy. *)
Fixpoint to_ascii_decimal (l : list Z) : list Z :=
  match l with
  | [] => []
  | c :: r =>
      if c <? 127 then c :: to_ascii_decimal r
      else if is_space c then 32 :: to_ascii_decimal r
      else match decimal_value c with
           | Some d => (48 + d) :: to_ascii_decimal r
           | None => [63]
           end
  end.

(** [Py_ISSPACE]: the C-level whitespace skipped by [PyLong_FromString]. *)
Definition c_isspace (c : Z) : bool := ((9 <=? c) && (c <=? 13)) || Z.eqb c 32.

Fixpoint skip_c_spaces (l : list Z) : list Z :=
  match l with
  | c :: r => if c_isspace c then skip_c_spaces r else l
  | [] => []
  end.

Definition is_ascii_digit (c : Z) : bool := (48 <=? c) && (c <=? 57).

(** The digit run of [PyLong_FromString] in base 10: single underscores
    between digits; returns the value, the number of digits and the rest.
    A run that does not end on a digit is rejected. *)
Fixpoint parse_digits (acc n : Z) (prev_digit : bool) (l : list Z) : option (Z * Z * list Z) :=
  match l with
  | [] => if prev_digit then Some (acc, n, []) else None
  | c :: r =>
      if is_ascii_digit c then parse_digits (acc * 10 + (c - 48)) (n + 1) true r
      else if Z.eqb c 95 && prev_digit then parse_digits acc n false r
      else if prev_digit then Some (acc, n, l) else None
  end.

(** [PyLong_FromString(buf, &end, 10)] followed by the check of
    [PyLong_FromUnicodeObject] that the whole buffer was consumed: leading
    and trailing [Py_ISSPACE] whitespace, an optional sign, the digits; more
    than 4300 digits (the default of [sys.set_int_max_str_digits]) raise. *)
Definition long_from_string (buf : list Z) : option Z :=
  let l := skip_c_spaces buf in
  let '(sign, l) :=
    match l with
    | c :: r => if Z.eqb c 43 then (1, r) else if Z.eqb c 45 then (-1, r) else (1, l)
    | [] => (1, l)
    end in
  match parse_digits 0 0 false l with
  | Some (v, n, rest) =>
      if 4300 <? n then None
      else match skip_c_spaces rest with [] => Some (sign * v) | _ => None end
  | None => None
  end.

(** Python's [int(s)] on a [str]: [None] is the [ValueError] case. *)
Definition py_int (s : string) : option Z :=
  let cps := code_points s in
  let buf := if forallb (fun c => c <? 128) cps then cps else to_ascii_decimal cps in
  long_from_string buf.

(** [int(days_param) if days_param is not None else 7], with
    [except ValueError: days = 7] *)
Definition parse_days (days_param : option string) : Z :=
  match days_param with
  | None => 7
  | Some s => match py_int s with Some d => d | None => 7 end
  end.

(** [^\d{4}-\d{2}-\d{2}$] on a list of characters, without the final
    newline that [$] also accepts. *)
Definition iso_shape (l : list Z) : bool :=
  match l with
  | [y1; y2; y3; y4; h1; m1; m2; h2; d1; d2] =>
      forallb is_decimal [y1; y2; y3; y4; m1; m2; d1; d2] && Z.eqb h1 45 && Z.eqb h2 45
  | _ => false
  end.

(** [re.compile(r"^\d{4}-\d{2}-\d{2}$").match(s)]: [$] matches at the end
    or before a final newline. *)
Definition iso_match (s : string) : bool :=
  let l := code_points s in
  iso_shape l || match rev l with c :: r => Z.eqb c 10 && iso_shape (rev r) | [] => false end.

Definition in_range (lo hi c : Z) : bool := (lo <=? c) && (c <=? hi).

(** A regular-expression alternation: the first alternative that matches. *)
Fixpoint first_alt {A} (alts : list (list Z -> option A)) (l : list Z) : option A :=
  match alts with
  | [] => None
  | a :: r => match a l with Some x => Some x | None => first_alt r l end
  end.

(** The [%m] group of [_strptime]: [1[0-2]|0[1-9]|[1-9]], then the ['-']
    of the format. *)
Definition month_1x (l : list Z) : option (Z * list Z) :=
  match l with
  | c1 :: c2 :: h :: r =>
      if Z.eqb c1 49 && in_range 48 50 c2 && Z.eqb h 45 then Some (10 + (c2 - 48), r) else None
  | _ => None
  end.

Definition month_0x (l : list Z) : option (Z * list Z) :=
  match l with
  | c1 :: c2 :: h :: r =>
      if Z.eqb c1 48 && in_range 49 57 c2 && Z.eqb h 45 then Some (c2 - 48, r) else None
  | _ => None
  end.

Definition month_x (l : list Z) : option (Z * list Z) :=
  match l with
  | c1 :: h :: r => if in_range 49 57 c1 && Z.eqb h 45 then Some (c1 - 48, r) else None
  | _ => None
  end.

(** The [%d] group of [_strptime]: [3[01]|[12]\d|0[1-9]|[1-9]| [1-9]]. *)
Definition day_3x (l : list Z) : option (Z * list Z) :=
  match l with
  | c1 :: c2 :: r => if Z.eqb c1 51 && in_range 48 49 c2 then Some (30 + (c2 - 48), r) else None
  | _ => None
  end.

Definition day_12x (l : list Z) : option (Z * list Z) :=
  match l with
  | c1 :: c2 :: r =>
      if in_range 49 50 c1 then option_map (fun v => ((c1 - 48) * 10 + v, r)) (decimal_value c2)
      else None
  | _ => None
  end.

Definition day_0x (l : list Z) : option (Z * list Z) :=
  match l with
  | c1 :: c2 :: r => if Z.eqb c1 48 && in_range 49 57 c2 then Some (c2 - 48, r) else None
  | _ => None
  end.

Definition day_x (l : list Z) : option (Z * list Z) :=
  match l with
  | c1 :: r => if in_range 49 57 c1 then Some (c1 - 48, r) else None
  | [] => None
  end.

Definition day_sp_x (l : list Z) : option (Z * list Z) :=
  match l with
  | c1 :: c2 :: r => if Z.eqb c1 32 && in_range 49 57 c2 then Some (c2 - 48, r) else None
  | _ => None
  end.

Definition strptime_month : list Z -> option (Z * list Z) :=
  first_alt [month_1x; month_0x; month_x].

Definition strptime_day : list Z -> option (Z * list Z) :=
  first_alt [day_3x; day_12x; day_0x; day_x; day_sp_x].

Definition is_leap (y : Z) : bool :=
  (Z.eqb (y mod 4) 0 && negb (Z.eqb (y mod 100) 0)) || Z.eqb (y mod 400) 0.

Definition days_in_month (y m : Z) : Z :=
  if Z.eqb m 2 then (if is_leap y then 29 else 28)
  else if existsb (Z.eqb m) [4; 6; 9; 11] then 30 else 31.

Definition days_before_month (y m : Z) : Z :=
  fold_left (fun acc k => acc + days_in_month y k)
            (map Z.of_nat (seq 1 (Z.to_nat (m - 1)))) 0.

(** [date(y, m, d).toordinal()] *)
Definition toordinal (y m d : Z) : Z :=
  let y1 := y - 1 in
  y1 * 365 + y1 / 4 - y1 / 100 + y1 / 400 + days_before_month y m + d.

(** [datetime.strptime(s, "%Y-%m-%d").date()]: the [_strptime] pattern
    [(?P<Y>\d\d\d\d)-(?P<m>...)-(?P<d>...)] must match the whole string
    (otherwise "unconverted data remains"); [int()] reads the groups and
    [date(y, m, d)] checks the year and the day of the month. [None] is the
    [ValueError]. *)
Definition strptime_date (s : string) : option Z :=
  match code_points s with
  | y1 :: y2 :: y3 :: y4 :: h :: r =>
      match decimal_value y1, decimal_value y2, decimal_value y3, decimal_value y4 with
      | Some a, Some b, Some c, Some d =>
          if negb (Z.eqb h 45) then None else
          match strptime_month r with
          | Some (m, r') =>
              match strptime_day r' with
              | Some (dd, []) =>
                  let y := ((a * 10 + b) * 10 + c) * 10 + d in
                  if (1 <=? y) && (1 <=? dd) && (dd <=? days_in_month y m)
                  then Some (toordinal y m dd) else None
              | _ => None
              end
          | None => None
          end
      | _, _, _, _ => None
      end
  | _ => None
  end.

(* ------------------------------------------------------------------ *)
(** * Read API handlers [ghi_trend] and [forecast_api]
      (function_app.py, lines 361-431 and 526-584) *)

Record http_req := mk_req {
  p_zip : option string; p_days : option string;
  p_start : option string; p_end : option string }.

(** The warehouse reads the two handlers can issue. *)
Inductive query :=
| QTrendDays (zip : string) (days : Z)            (* OBS_DATE >= today - (days-1) *)
| QTrendRange (zip : string) (start end_ : Z)     (* OBS_DATE BETWEEN start AND end *)
| QForecastTable (zip : string)                   (* MART.FORECAST_7D *)
| QForecastOnTheFly (zip : string) (days : Z).    (* constant 7d average, [days] rows *)

(** Rows fetched: (date string, value or NULL) *)
Definition sql_rows := list (string * option Q).

Inductive trend_echo :=
| EchoDays (days : Z)
| EchoRange (start end_ : Z).    (* the dates' isoformat() strings *)

Inductive resp_body :=
| BError (msg : string)
| BTrend (zip : string) (series : list (string * Q)) (echo : trend_echo)
| BForecast (zip : string) (days : Z) (series : list (string * Q)).

Record http_resp := mk_resp { status_code : Z; body : resp_body }.

Definition error_str (e : py_error) : string :=
  match e with
  | ValueError => "ValueError" | TypeError => "TypeError" | KeyError => "KeyError"
  | IndexError => "list index out of range" | AttributeError => "AttributeError"
  | RuntimeError => "RuntimeError" | HTTPError => "HTTPError"
  | RequestTimeout => "Timeout" | OtherError m => m
  end.

(** [except Exception as e: ... {"error": str(e)} ... status_code=500] *)
Definition resp500 (e : py_error) : http_resp := mk_resp 500 (BError (error_str e)).

(** What the handler does before it touches the warehouse: answer at once,
    or open a connection and run one query, building the answer from its rows. *)
Inductive handler_step :=
| Answer (r : http_resp)
| RunQuery (q : query) (k : sql_rows -> http_resp).

Definition opt_str (o : option string) : string :=
  match o with Some s => s | None => EmptyString end.

Definition series_of (rows : sql_rows) : list (string * Q) :=
  map (fun r => (fst r, or0 (snd r))) rows.

Definition zip_not_allowed (z : string) : http_resp :=
  mk_resp 400 (BError ("zip " ++ z ++ " not allowed")).

(** [s.split(",")]; the byte of [','] occurs in a UTF-8 string only as
    that character, so splitting the bytes splits the characters. *)
Fixpoint split_comma (l : list ascii) : list (list ascii) :=
  match l with
  | [] => [[]]
  | c :: r =>
      if Ascii.eqb c ","%char then [] :: split_comma r
      else match split_comma r with
           | w :: ws => (c :: w) :: ws
           | [] => [[c]]
           end
  end.

(** [ZIP_LIST = [z.strip() for z in os.getenv("ZIP_LIST", ...).split(",") if z.strip()]] *)
Definition ZIP_LIST_of_env (v : string) : list string :=
  filter (fun z => negb (String.eqb z EmptyString))
         (map (fun w => py_strip (string_of_list_ascii w)) (split_comma (list_ascii_of_string v))).

Section Handlers.
(** [ZIP_LIST], the configured allow-list. *)
Variable ZIP_LIST : list string.
(** Connecting to Snowflake and executing one read; may raise. *)
Variable run_query : query -> exc sql_rows.

(** [if not raw_zip: raw_zip = allowed[0]] *)
Definition default_zip (allowed : list string) (raw_zip : string) : exc string :=
  if String.eqb raw_zip EmptyString then
    match allowed with
    | a :: _ => Ok a
    | [] => Raise IndexError
    end
  else Ok raw_zip.

Definition in_allowed (allowed : list string) (z : string) : bool :=
  existsb (String.eqb z) allowed.

Definition ghi_trend_step (req : http_req) : exc handler_step :=
  let raw_zip := py_strip (opt_str (p_zip req)) in
  let days_param := p_days req in
  let start := py_strip (opt_str (p_start req)) in
  let end_ := py_strip (opt_str (p_end req)) in
  let allowed := ZIP_LIST in
  raw_zip <- default_zip allowed raw_zip ;;
  if negb (in_allowed allowed raw_zip) then Ok (Answer (zip_not_allowed raw_zip))
  else if negb (String.eqb start EmptyString) && negb (String.eqb end_ EmptyString) then
    if negb (iso_match start) || negb (iso_match end_) then
      Ok (Answer (mk_resp 400 (BError "start/end must be YYYY-MM-DD")))
    else
      match strptime_date start, strptime_date end_ with
      | Some d_start0, Some d_end0 =>
          let '(d_start1, d_end) :=
            if d_end0 <? d_start0 then (d_end0, d_start0) else (d_start0, d_end0) in
          let d_start := if 60 <? d_end - d_start1 then d_end - 60 else d_start1 in
          Ok (RunQuery (QTrendRange raw_zip d_start d_end)
                (fun rows => mk_resp 200 (BTrend raw_zip (series_of rows)
                                             (EchoRange d_start d_end))))
      | _, _ => Raise ValueError
      end
  else
    let days := Z.max 3 (Z.min (parse_days days_param) 60) in
    Ok (RunQuery (QTrendDays raw_zip days)
          (fun rows => mk_resp 200 (BTrend raw_zip (series_of rows) (EchoDays days)))).

Definition forecast_api_step (req : http_req) : exc handler_step :=
  let raw_zip := py_strip (opt_str (p_zip req)) in
  let days_param := p_days req in
  let days := Z.max 1 (Z.min (parse_days days_param) 30) in
  let allowed := ZIP_LIST in
  raw_zip <- default_zip allowed raw_zip ;;
  if negb (in_allowed allowed raw_zip) then Ok (Answer (zip_not_allowed raw_zip))
  else
    let q := if Z.eqb days 7 then QForecastTable raw_zip
             else QForecastOnTheFly raw_zip days in
    Ok (RunQuery q (fun rows => mk_resp 200 (BForecast raw_zip days (series_of rows)))).

(** Running a handler: the queries sent to the warehouse and the
    response; the enclosing [try ... except Exception] turns every
    error into a 500. *)
Definition run_handler (st : exc handler_step) : list query * http_resp :=
  match st with
  | Raise e => ([], resp500 e)
  | Ok (Answer r) => ([], r)
  | Ok (RunQuery q k) =>
      ([q], match run_query q with
            | Ok rows => k rows
            | Raise e => resp500 e
            end)
  end.

Definition ghi_trend (req : http_req) : list query * http_resp :=
  run_handler (ghi_trend_step req).

Definition forecast_api (req : http_req) : list query * http_resp :=
  run_handler (forecast_api_step req).
End Handlers.

(* ------------------------------------------------------------------ *)
(** * Ingestion run (function_app.py, lines 104-129 and 201-207) *)

(** A list comprehension whose element expression may raise. *)
Fixpoint exc_map {A B} (f : A -> exc B) (l : list A) : exc (list B) :=
  match l with
  | [] => Ok []
  | x :: r => y <- f x ;; ys <- exc_map f r ;; Ok (y :: ys)
  end.

(** [insert_rows(rows)]: nothing is done for an empty list; otherwise a
    connection is opened ([db_fail] is the error it, or the insert, raises)
    and the rows are appended to RAW.SOLAR_OBS and committed. *)
Definition insert_rows (db_fail : option py_error) (rows : list obs_record)
    (w : warehouse) : exc warehouse :=
  match rows with
  | [] => Ok w
  | _ =>
      match db_fail with
      | Some e => Raise e
      | None => Ok (mk_wh (SOLAR_OBS w ++ rows) (FORECAST_7D w))
      end
  end.

Section Ingest.
Variable http_get_zip : string -> exc json.
Variable http_get_meteo : Q -> Q -> exc json.
Variable py_float : json -> exc Q.

(** [fetch_solar_data]: one record per configured ZIP, then [insert_rows]. *)
Definition fetch_solar_data (today : Z) (ZIP_LIST : list string)
    (db_fail : option py_error) (w : warehouse) : exc warehouse :=
  rows <- exc_map (fetch_daily_record http_get_zip http_get_meteo py_float today) ZIP_LIST ;;
  insert_rows db_fail rows w.
End Ingest.

(* ------------------------------------------------------------------ *)
(** * [/zips] (function_app.py, lines 352-359) *)

(** Python's [<] on strings of ASCII characters: lexicographic on codes. *)
Definition str_compare : string -> string -> comparison := String_as_OT.compare.

(** Insert into a strictly increasing list, dropping an equal element. *)
Fixpoint insert_uniq (x : string) (l : list string) : list string :=
  match l with
  | [] => [x]
  | y :: r =>
      match str_compare x y with
      | Lt => x :: l
      | Eq => l
      | Gt => y :: insert_uniq x r
      end
  end.

(** [sorted(set(l))] *)
Definition py_sorted_set (l : list string) : list string :=
  fold_right insert_uniq [] l.

(** [list_zips]: the JSON body is [sorted(set(ZIP_LIST))], status 200. *)
Definition list_zips (ZIP_LIST : list string) : Z * list string :=
  (200, py_sorted_set ZIP_LIST).

(* ------------------------------------------------------------------ *)
(** * Insights run (function_app.py, lines 209-299) and [/ghitoday]
      (function_app.py, lines 327-350)

    Every warehouse statement is taken to succeed here; an AVG over a
    group of rows is [sql_avg]. *)

(** One row of [_fetch_today_vs_baseline]. *)
Record tvb_row := mk_tvb {
  t_ZIP : string;
  GHI_TODAY : option Q; DNI_TODAY : option Q; DHI_TODAY : option Q; CLOUD_TODAY : option Q;
  GHI_30D : option Q; DNI_30D : option Q; DHI_30D : option Q; CLOUD_30D : option Q }.

(** [AVG(col)] of ZIP [z] in a subquery grouped by ZIP; [NULL] when the
    outer join finds no group for [z]. *)
Definition group_avg (col : obs_record -> Q) (rows : list obs_record) (z : string) : option Q :=
  match filter (fun o => String.eqb (ZIP o) z) rows with
  | [] => None
  | g => Some (sql_avg (map col g))
  end.

(** [GROUP BY ZIP ... ORDER BY ZIP] lists each ZIP once, in increasing
    order: the same list as [sorted(set(...))]. *)
Definition _fetch_today_vs_baseline (today : Z) (raw : list obs_record) : list tvb_row :=
  (* today: WHERE OBS_DATE = CURRENT_DATE() GROUP BY ZIP *)
  let t := filter (fun o => Z.eqb (OBS_DATE o) today) raw in
  (* baseline: WHERE OBS_DATE BETWEEN DATEADD('day', -30, CURRENT_DATE())
                               AND DATEADD('day', -1, CURRENT_DATE()) GROUP BY ZIP *)
  let b := filter (fun o => (today - 30 <=? OBS_DATE o) && (OBS_DATE o <=? today - 1)) raw in
  (* FULL OUTER JOIN baseline b ON t.ZIP = b.ZIP, COALESCE(t.ZIP, b.ZIP), ORDER BY 1 *)
  map (fun z => mk_tvb z (group_avg GHI t z) (group_avg DNI t z) (group_avg DHI t z)
                       (group_avg CLOUD_COVER t z)
                       (group_avg GHI b z) (group_avg DNI b z) (group_avg DHI b z)
                       (group_avg CLOUD_COVER b z))
      (py_sorted_set (map ZIP t ++ map ZIP b)).

(** A row of MART.SUMMARIES, with the columns the code writes; the
    CREATED_AT column, filled by the table on insert, is not modelled, so
    statements about these rows say nothing about it. *)
Record summary_row := mk_summary {
  SUMMARY_DATE : Z; s_ZIP : string; SUMMARY_TEXT : summary_out }.

(** [_upsert_summaries(rows)]: for each pair, delete today's summary of
    its ZIP; then insert every pair dated today. *)
Definition _upsert_summaries (today : Z) (rows : list (string * summary_out))
    (S : list summary_row) : list summary_row :=
  let S1 := fold_left (fun acc p =>
              filter (fun r => negb (Z.eqb (SUMMARY_DATE r) today && String.eqb (s_ZIP r) (fst p)))
                     acc) rows S in
  S1 ++ map (fun p => mk_summary today (fst p) (snd p)) rows.

(** RAW, FORECAST_7D and MART.SUMMARIES *)
Record db := mk_db { wh : warehouse; SUMMARIES : list summary_row }.

Section Insights.
Variable USE_AOAI : bool.
Variable aoai_post : prompt -> exc string.

(** The body of the loop over the rows of [_fetch_today_vs_baseline]. *)
Definition summary_pair (row : tvb_row) : exc (string * summary_out) :=
  let pct := _pct_change (GHI_TODAY row) (GHI_30D row) in
  text <- aoai_summary_or_heuristic USE_AOAI aoai_post (t_ZIP row)
            (GHI_TODAY row) (DNI_TODAY row) (CLOUD_TODAY row) pct ;;
  Ok (t_ZIP row, text).

(** [generate_insights]: read, summarize, write the summaries, then
    refresh the forecast table. *)
Definition generate_insights (today : Z) (d : db) : exc db :=
  let data := _fetch_today_vs_baseline today (SOLAR_OBS (wh d)) in
  pairs <- exc_map summary_pair data ;;
  let S' := _upsert_summaries today pairs (SUMMARIES d) in
  Ok (mk_db (upsert_forecast_7d today (wh d)) S').
End Insights.


(* ------------------------------------------------------------------ *)
(** * [/status] (function_app.py, lines 433-524)

    The handler reads three clocks, each a parameter of its own:
    [raw_today] is [CURRENT_DATE()] in the session of the RAW query,
    [mart_today] is [CURRENT_DATE()] in the session of the MART query (both
    in the Snowflake session's time zone), and [utc_today] is
    [datetime.utcnow().date()] on the host. Dates are compared as the day
    numbers their [isoformat()] strings denote. [server_time_utc] and
    [LAST_CREATED] (the clock and the CREATED_AT default) are left out. *)

(** One entry of [ingestion]: [MAX(OBS_DATE)] and
    [SUM(IFF(OBS_DATE = CURRENT_DATE(), 1, 0))] of a ZIP. *)
Record ing_row := mk_ing { i_ZIP : string; LAST_OBS : Z; TODAY_ROWS : Z }.

(** One entry of [forecast]: [COUNT( * )], [MIN(FCST_DATE)], [MAX(FCST_DATE)]. *)
Record fc_row := mk_fc { c_ZIP : string; DAYS : Z; FIRST_DATE : Z; LAST_DATE : Z }.

(** One entry of [per_zip]. *)
Record zip_flags := mk_flags { z_ZIP : string; INGEST_TODAY : bool; FORECAST_7D_OK : bool }.

Record status_payload := mk_status {
  zips : list string;
  ingestion : list ing_row;
  TODAY_SUMMARIES : Z;
  forecast : list fc_row;
  per_zip : list zip_flags }.

(** [MAX]/[MIN] over the dates of a non-empty group *)
Definition max_date (ds : list Z) : Z :=
  match ds with [] => 0 | d :: r => fold_left Z.max r d end.
Definition min_date (ds : list Z) : Z :=
  match ds with [] => 0 | d :: r => fold_left Z.min r d end.

Definition status_ingestion (today : Z) (raw : list obs_record) : list ing_row :=
  map (fun z =>
         let g := filter (fun o => String.eqb (ZIP o) z) raw in
         mk_ing z (max_date (map OBS_DATE g))
                (Z.of_nat (List.length (filter (fun o => Z.eqb (OBS_DATE o) today) g))))
      (py_sorted_set (map ZIP raw)).

Definition status_forecast (fc : list fcst_row) : list fc_row :=
  map (fun z =>
         let g := filter (fun r => String.eqb (f_ZIP r) z) fc in
         mk_fc z (Z.of_nat (List.length g)) (min_date (map FCST_DATE g))
               (max_date (map FCST_DATE g)))
      (py_sorted_set (map f_ZIP fc)).

(** [allowed]: the ZIP_LIST setting parsed as for [ZIP_LIST], but read
    with the empty string as its default. *)
Definition status_allowed (env : option string) : list string :=
  ZIP_LIST_of_env (match env with Some v => v | None => EmptyString end).

(** [ZIP_LIST], read with its default *)
Definition ZIP_LIST_setting (env : option string) : list string :=
  ZIP_LIST_of_env (match env with Some v => v | None => "93727,93637,95340"%string end).

Definition status_api (raw_today mart_today utc_today : Z) (env : option string) (d : db)
    : Z * status_payload :=
  let allowed := status_allowed env in
  let ing := status_ingestion raw_today (SOLAR_OBS (wh d)) in
  let n_sum := Z.of_nat (List.length
                 (filter (fun r => Z.eqb (SUMMARY_DATE r) mart_today) (SUMMARIES d))) in
  let fcov := status_forecast (FORECAST_7D (wh d)) in
  let flags := map (fun z =>
        (* ing = next((r for r in ingestion if r["ZIP"] == z), None) *)
        let has_today := match find (fun r => String.eqb (i_ZIP r) z) ing with
                         | Some r => (0 <? TODAY_ROWS r) && Z.eqb (LAST_OBS r) utc_today
                         | None => false
                         end in
        let has_7d := match find (fun r => String.eqb (c_ZIP r) z) fcov with
                      | Some r => 7 <=? DAYS r
                      | None => false
                      end in
        mk_flags z has_today has_7d) allowed in
  (200, mk_status allowed ing n_sum fcov flags).

(* ================================================================== *)
(** * Auxiliary definitions used in the statements *)

(** The request with its [days] parameter replaced. *)
Definition with_days (req : http_req) (d : option string) : http_req :=
  mk_req (p_zip req) d (p_start req) (p_end req).



(** RAW rows of ZIP [z] in the forecast writer's window
    ([OBS_DATE >= DATEADD(day, -6, CURRENT_DATE())]). *)
Definition window_rows (today : Z) (raw : list obs_record) (z : string) : list obs_record :=
  filter (fun o => String.eqb (ZIP o) z) (filter (fun o => today - 6 <=? OBS_DATE o) raw).

(** Forecast rows of ZIP [z] dated tomorrow or later. *)
Definition future_rows_of (today : Z) (z : string) (fc : list fcst_row) : list fcst_row :=
  filter (fun r => String.eqb (f_ZIP r) z && (today + 1 <=? FCST_DATE r)) fc.

(* ================================================================== *)
(** * Helper lemmas *)

Lemma filter_none {A} (f : A -> bool) (l : list A) :
  (forall x, In x l -> f x = false) -> filter f l = [].
Proof.
  induction l as [|a l IH]; intros H; [reflexivity|].
  simpl. rewrite (H a (or_introl eq_refl)). apply IH. intros x Hx. apply H. right; exact Hx.
Qed.

Lemma filter_all {A} (f : A -> bool) (l : list A) :
  (forall x, In x l -> f x = true) -> filter f l = l.
Proof.
  induction l as [|a l IH]; intros H; [reflexivity|].
  simpl. rewrite (H a (or_introl eq_refl)). f_equal. apply IH.
  intros x Hx. apply H. right; exact Hx.
Qed.

Lemma flat_map_map' {A B C} (f : B -> list C) (h : A -> B) (l : list A) :
  flat_map f (map h l) = flat_map (fun x => f (h x)) l.
Proof. induction l as [|a l IH]; [reflexivity|]. simpl. rewrite IH. reflexivity. Qed.

Lemma filter_idem {A} (f : A -> bool) (l : list A) : filter f (filter f l) = filter f l.
Proof.
  induction l as [|a l IH]; [reflexivity|].
  simpl. destruct (f a) eqn:E; simpl; [rewrite E, IH|]; exact IH || reflexivity.
Qed.

Lemma filter_flat_map {A B} (f : B -> bool) (g : A -> list B) (l : list A) :
  filter f (flat_map g l) = flat_map (fun x => filter f (g x)) l.
Proof.
  induction l as [|a l IH]; [reflexivity|]. simpl. rewrite filter_app, IH. reflexivity.
Qed.

Lemma flat_map_absent {B} (g : string -> list B) (z : string) (l : list string) :
  ~ In z l -> flat_map (fun z' => if String.eqb z' z then g z' else []) l = [].
Proof.
  induction l as [|a l IH]; intros Hn; [reflexivity|]. simpl.
  destruct (String.eqb a z) eqn:E.
  - apply String.eqb_eq in E. subst. exfalso. apply Hn. left; reflexivity.
  - apply IH. intros H. apply Hn. right; exact H.
Qed.

Lemma flat_map_select {B} (g : string -> list B) (z : string) (l : list string) :
  NoDup l ->
  flat_map (fun z' => if String.eqb z' z then g z' else []) l
    = if in_dec string_dec z l then g z else [].
Proof.
  induction l as [|a l IH]; intros Hnd; [reflexivity|].
  inversion Hnd as [|? ? Hna Hnd']; subst. cbn [flat_map].
  destruct (in_dec string_dec z (a :: l)) as [Hi|Hi].
  - destruct (String.eqb a z) eqn:E.
    + apply String.eqb_eq in E. subst.
      rewrite flat_map_absent by exact Hna. apply app_nil_r.
    + apply String.eqb_neq in E. rewrite IH by exact Hnd'.
      destruct (in_dec string_dec z l) as [Hl|Hl]; [reflexivity|].
      destruct Hi as [Hi|Hi]; [congruence|contradiction].
  - assert (E : String.eqb a z = false).
    { apply String.eqb_neq. intros ->. apply Hi. left; reflexivity. }
    rewrite E, IH by exact Hnd'. cbn [app].
    destruct (in_dec string_dec z l) as [Hl|Hl]; [|reflexivity].
    exfalso. apply Hi. right; exact Hl.
Qed.

Lemma in_map_zip_filter (z : string) (rows : list obs_record) :
  In z (map ZIP rows) <-> filter (fun o => String.eqb (ZIP o) z) rows <> [].
Proof.
  induction rows as [|o rows IH]; simpl; [split; [contradiction|congruence]|].
  destruct (String.eqb (ZIP o) z) eqn:E.
  - apply String.eqb_eq in E. split; [discriminate|]. intros _. left; exact E.
  - apply String.eqb_neq in E. rewrite <- IH. split; [intros [H|H]; [contradiction|exact H]|].
    intros H; right; exact H.
Qed.

Lemma gen_dates_future (today d : Z) (n : nat) :
  In d (gen_dates today n) -> today + 1 <= d.
Proof.
  unfold gen_dates. rewrite in_map_iff. intros (k & <- & _). lia.
Qed.





Lemma Qlt_bool_iff (x y : Q) : Qlt_bool x y = true <-> (x < y)%Q.
Proof.
  unfold Qlt_bool. rewrite negb_true_iff. split; intro H.
  - apply Qnot_le_lt. intro Hle. apply Qle_bool_iff in Hle. congruence.
  - destruct (Qle_bool y x) eqn:E; [|reflexivity].
    apply Qle_bool_iff in E. exfalso. apply (Qlt_not_le x y); assumption.
Qed.

Lemma Qlt_bool_false (x y : Q) : Qlt_bool x y = false <-> (y <= x)%Q.
Proof.
  unfold Qlt_bool. rewrite negb_false_iff. apply Qle_bool_iff.
Qed.

Lemma lead_not_cont (b : ascii) : (byte_of b <? 192) = false -> is_cont b = false.
Proof.
  unfold is_cont. intros H. apply Z.ltb_ge in H. apply andb_false_intro2. apply Z.ltb_ge. lia.
Qed.

Lemma utf8_chars_step (l : list ascii) :
  l = [] \/ exists c l', utf8_chars l = c :: utf8_chars l' /\ l = c ++ l' /\ piece_ok c.
Proof.
  destruct l as [|b r]; [left; reflexivity|right].
  cbn [utf8_chars].
  destruct (byte_of b <? 192) eqn:E0; [exists [b], r; repeat split|].
  apply lead_not_cont in E0.
  destruct (byte_of b <? 224).
  { destruct r as [|c1 r1]; [exists [b], []; repeat split|].
    destruct (is_cont c1); [exists [b; c1], r1 | exists [b], (c1 :: r1)]; repeat split.
    exact E0. }
  destruct (byte_of b <? 240).
  { destruct r as [|c1 [|c2 r2]]; try (exists [b]; eexists; repeat split; fail).
    destruct (is_cont c1 && is_cont c2); [exists [b; c1; c2], r2 | exists [b], (c1 :: c2 :: r2)];
      repeat split. exact E0. }
  destruct (byte_of b <? 248).
  { destruct r as [|c1 [|c2 [|c3 r3]]]; try (exists [b]; eexists; repeat split; fail).
    destruct (is_cont c1 && is_cont c2 && is_cont c3);
      [exists [b; c1; c2; c3], r3 | exists [b], (c1 :: c2 :: c3 :: r3)];
      repeat split. exact E0. }
  exists [b], r; repeat split.
Qed.

Lemma piece_ok_length (c : list ascii) : piece_ok c -> (0 < List.length c)%nat.
Proof. destruct c; simpl; [contradiction|lia]. Qed.

Lemma utf8_chars_concat (l : list ascii) : List.concat (utf8_chars l) = l.
Proof.
  remember (List.length l) as n eqn:Hn. revert l Hn.
  induction n as [n IH] using (well_founded_induction lt_wf). intros l ->.
  destruct (utf8_chars_step l) as [->|(c & l' & E & -> & Hc)]; [reflexivity|].
  rewrite E. cbn [List.concat]. f_equal. apply (IH (List.length l')); [|reflexivity].
  rewrite length_app. apply piece_ok_length in Hc. lia.
Qed.

Lemma utf8_chars_pieces (l : list ascii) : Forall piece_ok (utf8_chars l).
Proof.
  remember (List.length l) as n eqn:Hn. revert l Hn.
  induction n as [n IH] using (well_founded_induction lt_wf). intros l ->.
  destruct (utf8_chars_step l) as [->|(c & l' & E & -> & Hc)]; [constructor|].
  rewrite E. constructor; [exact Hc|]. apply (IH (List.length l')); [|reflexivity].
  rewrite length_app. apply piece_ok_length in Hc. lia.
Qed.

Ltac fold_app q :=
  repeat match goal with
         | |- context [?x :: ?y ++ q] => change (x :: y ++ q) with ((x :: y) ++ q)
         end.

Lemma utf8_chars_app (p q : list ascii) :
  head_not_cont q -> utf8_chars (p ++ q) = utf8_chars p ++ utf8_chars q.
Proof.
  intros Hq.
  remember (List.length p) as n eqn:Hn. revert p Hn.
  induction n as [n IH] using (well_founded_induction lt_wf). intros p ->.
  destruct p as [|b r]; [reflexivity|].
  assert (IHr : forall r', (List.length r' < S (List.length r))%nat ->
            utf8_chars (r' ++ q) = utf8_chars r' ++ utf8_chars q)
    by (intros r' Hr'; apply (IH (List.length r')); [simpl; lia|reflexivity]).
  cbn [app utf8_chars].
  destruct (byte_of b <? 192); [rewrite IHr by lia; reflexivity|].
  destruct (byte_of b <? 224).
  { destruct r as [|c1 r1]; cbn [app].
    - destruct q as [|c1 q1]; [rewrite ?app_nil_r; reflexivity|]. cbn in Hq. rewrite Hq.
      reflexivity.
    - fold_app q. destruct (is_cont c1); rewrite IHr by (simpl; lia); reflexivity. }
  destruct (byte_of b <? 240).
  { destruct r as [|c1 [|c2 r2]]; cbn [app].
    - destruct q as [|c1 [|c2 q2]]; [rewrite ?app_nil_r; reflexivity|reflexivity|].
      cbn in Hq. rewrite Hq. reflexivity.
    - destruct q as [|c2 q2]; [rewrite ?app_nil_r; reflexivity|].
      cbn in Hq. rewrite Hq, andb_false_r.
      change (c1 :: c2 :: q2) with ([c1] ++ c2 :: q2). rewrite IHr by (simpl; lia).
      reflexivity.
    - fold_app q. destruct (is_cont c1 && is_cont c2); rewrite IHr by (simpl; lia);
        reflexivity. }
  destruct (byte_of b <? 248).
  { destruct r as [|c1 [|c2 [|c3 r3]]]; cbn [app].
    - destruct q as [|c1 [|c2 [|c3 q3]]]; try (rewrite ?app_nil_r; reflexivity).
      cbn in Hq. rewrite Hq. reflexivity.
    - destruct q as [|c2 [|c3 q3]]; [rewrite ?app_nil_r; reflexivity| |].
      + change [c1; c2] with ([c1] ++ [c2]). rewrite IHr by (simpl; lia). reflexivity.
      + cbn in Hq. rewrite Hq, andb_false_r, andb_false_l.
        change (c1 :: c2 :: c3 :: q3) with ([c1] ++ c2 :: c3 :: q3).
        rewrite IHr by (simpl; lia). reflexivity.
    - destruct q as [|c3 q3]; [rewrite ?app_nil_r; reflexivity|].
      cbn in Hq. rewrite Hq, andb_false_r.
      change (c1 :: c2 :: c3 :: q3) with ([c1; c2] ++ c3 :: q3).
      rewrite IHr by (simpl; lia). reflexivity.
    - fold_app q. destruct (is_cont c1 && is_cont c2 && is_cont c3);
        rewrite IHr by (simpl; lia); reflexivity. }
  rewrite IHr by lia. reflexivity.
Qed.

(** Cutting again the bytes of the pieces that follow a piece boundary
    gives those pieces back. *)
Lemma utf8_chars_suffix (P Y : list (list ascii)) :
  utf8_chars (List.concat (P ++ Y)) = P ++ Y -> utf8_chars (List.concat Y) = Y.
Proof.
  induction P as [|p P IH]; [exact (fun H => H)|]. intros H. apply IH.
  cbn [app List.concat] in H |- *.
  destruct (utf8_chars_step (p ++ List.concat (P ++ Y))) as [E|(c & l' & E & El & _)].
  - rewrite E in H. discriminate.
  - rewrite H in E. injection E as <- E.
    apply app_inv_head in El. rewrite El. symmetry. exact E.
Qed.

Lemma space_piece_head (c : list ascii) (T : list (list ascii)) :
  piece_ok c -> is_space (char_cp c) = true -> head_not_cont (List.concat (c :: T)).
Proof.
  destruct c as [|b [|x t]]; [contradiction| |]; intros Hok Hs; cbn [List.concat app].
  - cbn [char_cp] in Hs. unfold head_not_cont, is_cont.
    destruct (byte_of b <? 128) eqn:E; [|discriminate].
    apply Z.ltb_lt in E. apply andb_false_intro1. apply Z.leb_gt. lia.
  - exact Hok.
Qed.

(** Cutting again the bytes of the pieces before a whitespace piece
    gives those pieces back. *)
Lemma utf8_chars_prefix (M T : list (list ascii)) :
  utf8_chars (List.concat (M ++ T)) = M ++ T ->
  (T = [] \/ exists t T', T = t :: T' /\ piece_ok t /\ is_space (char_cp t) = true) ->
  utf8_chars (List.concat M) = M.
Proof.
  intros H [->|(t & T' & -> & Hok & Hs)]; [rewrite app_nil_r in H; exact H|].
  assert (HT := utf8_chars_suffix M (t :: T') H).
  rewrite concat_app, utf8_chars_app in H by (apply space_piece_head; assumption).
  rewrite HT in H. apply app_inv_tail in H. exact H.
Qed.

Lemma drop_spaces_head (l : list (list ascii)) :
  match drop_spaces l with [] => True | c :: _ => is_space (char_cp c) = false end.
Proof.
  induction l as [|c l IH]; [exact I|]. simpl.
  destruct (is_space (char_cp c)) eqn:E; [exact IH | exact E].
Qed.

Lemma drop_spaces_fix (l : list (list ascii)) :
  match l with [] => True | c :: _ => is_space (char_cp c) = false end -> drop_spaces l = l.
Proof. destruct l as [|c l]; [reflexivity|]. simpl. intros ->. reflexivity. Qed.

Lemma drop_spaces_suffix (l : list (list ascii)) :
  exists p, l = p ++ drop_spaces l /\ Forall (fun c => is_space (char_cp c) = true) p.
Proof.
  induction l as [|c l (p & Hp & Hs)]; [exists []; split; [reflexivity|constructor]|]. simpl.
  destruct (is_space (char_cp c)) eqn:E.
  - exists (c :: p). split; [simpl; f_equal; exact Hp|constructor; assumption].
  - exists []. split; [reflexivity|constructor].
Qed.

(** [str.strip()] is idempotent. *)
Lemma py_strip_idem (s : string) : py_strip (py_strip s) = py_strip s.
Proof.
  unfold py_strip at 2 3. unfold py_strip.
  rewrite list_ascii_of_string_of_list_ascii.
  set (C := utf8_chars (list_ascii_of_string s)).
  set (A := drop_spaces C).
  set (B := drop_spaces (rev A)).
  assert (HA := drop_spaces_head C). fold A in HA.
  assert (HB := drop_spaces_head (rev A)). fold B in HB.
  destruct (drop_spaces_suffix C) as (P & HP & _). fold A in HP.
  destruct (drop_spaces_suffix (rev A)) as (p & Hp & Hps). fold B in Hp.
  assert (HrevA : A = rev B ++ rev p)
    by (rewrite <- rev_app_distr, <- Hp, rev_involutive; reflexivity).
  assert (HC : utf8_chars (List.concat C) = C)
    by (unfold C; rewrite utf8_chars_concat; reflexivity).
  assert (HM : utf8_chars (List.concat (rev B)) = rev B).
  { apply (utf8_chars_prefix (rev B) (rev p)).
    - rewrite <- HrevA. apply (utf8_chars_suffix P A). rewrite <- HP. exact HC.
    - destruct (rev p) as [|t T'] eqn:Er; [left; reflexivity|right].
      exists t, T'. split; [reflexivity|]. split.
      + assert (Hall := utf8_chars_pieces (list_ascii_of_string s)). fold C in Hall.
        rewrite Forall_forall in Hall. apply Hall. rewrite HP, HrevA.
        apply in_or_app. right. apply in_or_app. right. left. reflexivity.
      + rewrite Forall_forall in Hps. apply Hps. apply in_rev. rewrite Er. left. reflexivity. }
  rewrite HM.
  rewrite (drop_spaces_fix (rev B)).
  2:{ destruct (rev B) as [|c r] eqn:E; [exact I|]. rewrite HrevA in HA. exact HA. }
  rewrite rev_involutive, (drop_spaces_fix B); [reflexivity|].
  destruct B; [exact I | exact HB].
Qed.

Lemma decimal_not_space (c : Z) : is_decimal c = true -> is_space c = false.
Proof.
  intros Hd. destruct (is_space c) eqn:Hs; [|reflexivity]. exfalso.
  unfold is_space in Hs. apply existsb_exists in Hs as (x & Hin & Hx).
  apply Z.eqb_eq in Hx. subst x.
  repeat (destruct Hin as [<-|Hin]; [vm_compute in Hd; discriminate|]). destruct Hin.
Qed.

Lemma ascii_digit_decimal (lo hi c : Z) :
  48 <= lo -> hi <= 57 -> in_range lo hi c = true -> is_decimal c = true.
Proof.
  intros Hlo Hhi H. unfold in_range in H. apply andb_true_iff in H as [H1 H2].
  apply Z.leb_le in H1. apply Z.leb_le in H2.
  unfold is_decimal, decimal_value. cbn [find decimal_zeros].
  replace ((48 <=? c) && (c <? 48 + 10)) with true
    by (symmetry; apply andb_true_iff; split; [apply Z.leb_le|apply Z.ltb_lt]; lia).
  reflexivity.
Qed.

Lemma decimal_value_is_decimal (c v : Z) : decimal_value c = Some v -> is_decimal c = true.
Proof. unfold is_decimal. intros ->. reflexivity. Qed.

Lemma strptime_month_rest (r : list Z) (m : Z) (r' : list Z) :
  strptime_month r = Some (m, r') -> exists pre, r = pre ++ r'.
Proof.
  unfold strptime_month, first_alt, month_1x, month_0x, month_x.
  destruct r as [|c1 [|c2 [|h t]]]; try discriminate.
  - destruct (in_range 49 57 c1 && Z.eqb c2 45); [|discriminate].
    intros H; injection H as _ <-. exists [c1; c2]. reflexivity.
  - destruct (Z.eqb c1 49 && in_range 48 50 c2 && Z.eqb h 45).
    { intros H; injection H as _ <-. exists [c1; c2; h]. reflexivity. }
    destruct (Z.eqb c1 48 && in_range 49 57 c2 && Z.eqb h 45).
    { intros H; injection H as _ <-. exists [c1; c2; h]. reflexivity. }
    destruct (in_range 49 57 c1 && Z.eqb c2 45); [|discriminate].
    intros H; injection H as _ <-. exists [c1; c2]. reflexivity.
Qed.

Lemma strptime_day_last (r : list Z) (d : Z) :
  strptime_day r = Some (d, []) -> exists pre c, r = pre ++ [c] /\ is_space c = false.
Proof.
  assert (Hdig : forall lo hi c, 48 <= lo -> hi <= 57 -> in_range lo hi c = true ->
                   is_space c = false)
    by (intros lo hi c H1 H2 H; apply decimal_not_space; exact (ascii_digit_decimal lo hi c H1 H2 H)).
  unfold strptime_day, first_alt, day_3x, day_12x, day_0x, day_x, day_sp_x.
  destruct r as [|c1 [|c2 t]]; try discriminate.
  - destruct (in_range 49 57 c1) eqn:E; [|discriminate]. intros _.
    exists [], c1. split; [reflexivity|]. exact (Hdig 49 57 c1 ltac:(lia) ltac:(lia) E).
  - destruct (Z.eqb c1 51 && in_range 48 49 c2) eqn:E.
    { intros H; injection H as _ ->. exists [c1], c2. split; [reflexivity|].
      apply andb_true_iff in E as [_ E]. exact (Hdig 48 49 c2 ltac:(lia) ltac:(lia) E). }
    destruct (in_range 49 50 c1);
      [destruct (decimal_value c2) as [v|] eqn:Ev; cbn [option_map]|].
    { intros H; injection H as _ ->. exists [c1], c2. split; [reflexivity|].
      apply decimal_not_space. exact (decimal_value_is_decimal _ _ Ev). }
    all: destruct (Z.eqb c1 48 && in_range 49 57 c2) eqn:E0;
      [intros H; injection H as _ ->; exists [c1], c2; split; [reflexivity|];
       apply andb_true_iff in E0 as [_ E0]; exact (Hdig 49 57 c2 ltac:(lia) ltac:(lia) E0)|].
    all: destruct (in_range 49 57 c1); [intros H; injection H as _ H; discriminate|].
    all: destruct (Z.eqb c1 32 && in_range 49 57 c2) eqn:E1; [|discriminate].
    all: intros H; injection H as _ ->; exists [c1], c2; split; [reflexivity|];
      apply andb_true_iff in E1 as [_ E1]; exact (Hdig 49 57 c2 ltac:(lia) ltac:(lia) E1).
Qed.

(** A string [strptime] reads as a date has no surrounding whitespace. *)
Lemma strptime_stripped (s : string) (d : Z) :
  strptime_date s = Some d -> py_strip s = s /\ s <> EmptyString.
Proof.
  unfold strptime_date, code_points. intros H.
  set (C := utf8_chars (list_ascii_of_string s)) in *.
  destruct (map char_cp C) as [|y1 [|y2 [|y3 [|y4 [|h r]]]]] eqn:EC; try discriminate.
  destruct (decimal_value y1) as [a|] eqn:Ea; [|discriminate].
  destruct (decimal_value y2), (decimal_value y3), (decimal_value y4); try discriminate.
  destruct (negb (Z.eqb h 45)); [discriminate|].
  destruct (strptime_month r) as [[m r']|] eqn:Em; [|discriminate].
  destruct (strptime_day r') as [[dd [|x t]]|] eqn:Ed; try discriminate.
  destruct (strptime_month_rest r m r' Em) as [pre1 ->].
  destruct (strptime_day_last r' dd Ed) as (pre2 & c & -> & Hc).
  assert (Hy1 : is_space y1 = false)
    by (apply decimal_not_space; exact (decimal_value_is_decimal _ _ Ea)).
  destruct C as [|c0 C'] eqn:EC0; [discriminate|].
  assert (Hrev : map char_cp (rev (c0 :: C')) = c :: rev (y1 :: y2 :: y3 :: y4 :: h :: pre1 ++ pre2)).
  { rewrite map_rev, EC.
    change (y1 :: y2 :: y3 :: y4 :: h :: pre1 ++ pre2 ++ [c])
      with ((y1 :: y2 :: y3 :: y4 :: h :: pre1) ++ pre2 ++ [c]).
    rewrite app_assoc, rev_unit. reflexivity. }
  split.
  - unfold py_strip. fold C. rewrite EC0.
    cbn [drop_spaces]. cbn [map] in EC. injection EC as Ec0 _. rewrite Ec0, Hy1.
    destruct (rev (c0 :: C')) as [|c1 R] eqn:ER; [discriminate|].
    cbn [map] in Hrev. injection Hrev as Ec1 _. cbn [drop_spaces]. rewrite Ec1, Hc.
    rewrite <- ER, rev_involutive, <- EC0. unfold C. rewrite utf8_chars_concat.
    apply string_of_list_ascii_of_string.
  - intros ->. discriminate.
Qed.

(** Python's swap: [if d_start > d_end: d_start, d_end = d_end, d_start] *)
Lemma swap_min_max (a b : Z) :
  (if b <? a then (b, a) else (a, b)) = (Z.min a b, Z.max a b).
Proof.
  destruct (b <? a) eqn:E; [apply Z.ltb_lt in E|apply Z.ltb_ge in E];
    f_equal; lia.
Qed.

(* ================================================================== *)
(** * Claims *)

(** C1: with today's data and a percent change [pct], the heuristic summary
    reports the trend [classify pct]; it is "above" exactly when pct > 10,
    "below" exactly when pct < -10 and "near" otherwise; 10 and -10 are
    "near", 10.01 is "above" and -10.01 is "below". *)
Theorem heuristic_summary_classification :
  (forall (zip : string) (g : Q) (dni cloud : option Q) (pct : Q),
      heuristic_summary zip (Some g) dni cloud (Some pct)
        = TrendText zip (classify pct) pct g (or0 dni) (or0 cloud)
      /\ (classify pct = Above <-> (10 < pct)%Q)
      /\ (classify pct = Below <-> (pct < -10)%Q)
      /\ (classify pct = Near <-> (-10 <= pct)%Q /\ (pct <= 10)%Q))
  /\ classify 10 = Near /\ classify (1001 # 100) = Above
  /\ classify (-10) = Near /\ classify (-1001 # 100) = Below.
Proof.
  split; [|repeat split; reflexivity].
  intros zip g dni cloud pct. split; [reflexivity|].
  unfold classify.
  destruct (Qlt_bool pct (-10)) eqn:Hlo; destruct (Qlt_bool 10 pct) eqn:Hhi;
    try apply Qlt_bool_iff in Hlo; try apply Qlt_bool_iff in Hhi;
    try apply Qlt_bool_false in Hlo; try apply Qlt_bool_false in Hhi;
    repeat split; intros; try discriminate; try reflexivity; intuition lra.
Qed.

(** C2: [_pct_change t b] is [None] exactly when [t] is [None], [b] is
    [None] or [b] equals zero; otherwise it is [(t - b) / b * 100]. *)
Theorem pct_change_spec (t b : option Q) :
  (_pct_change t b = None <->
     t = None \/ b = None \/ exists v, b = Some v /\ (v == 0)%Q)
  /\ (forall r, _pct_change t b = Some r <->
       exists tv bv, t = Some tv /\ b = Some bv /\ ~ (bv == 0)%Q
                     /\ r = ((tv - bv) / bv * 100)%Q).
Proof.
  destruct t as [tv|], b as [bv|]; simpl.
  - destruct (Qeq_bool bv 0) eqn:E.
    + apply Qeq_bool_iff in E. split.
      * split; [intros _; right; right; exists bv; auto | reflexivity].
      * intros r. split; [discriminate|].
        intros (tv' & bv' & _ & Hb & Hnz & _). inversion Hb; subst. contradiction.
    + assert (Hnz : ~ (bv == 0)%Q).
      { intro H. apply Qeq_bool_iff in H. congruence. }
      split.
      * split; [discriminate|].
        intros [H|[H|(v & Hv & H0)]]; try discriminate.
        inversion Hv; subst. contradiction.
      * intros r. split.
        -- intros H. inversion H; subst. exists tv, bv. auto.
        -- intros (tv' & bv' & Ht & Hb & _ & Hr). inversion Ht; inversion Hb; subst.
           reflexivity.
  - split; [split; auto|].
    intros r. split; [discriminate|]. intros (? & ? & _ & H & _). discriminate.
  - split; [split; auto|].
    intros r. split; [discriminate|]. intros (? & ? & H & _). discriminate.
  - split; [split; auto|].
    intros r. split; [discriminate|]. intros (? & ? & H & _). discriminate.
Qed.

(** C7: on the trend endpoint (day-count form, i.e. without both [start]
    and [end]) the day count [d] parsed from [days] becomes
    [max(3, min(d, 60))], which lies in [3, 60] and equals [d] when [d] is
    already in range; on the forecast endpoint it becomes
    [max(1, min(d, 30))], in [1, 30]. *)
Theorem days_clamped (ZL : list string) (rq : query -> exc sql_rows)
    (z s : string) (st en : option string) (d : Z)
    (Hz : in_allowed ZL (py_strip z) = true)
    (Hz' : py_strip z <> EmptyString)
    (Hrange : py_strip (opt_str st) = EmptyString \/ py_strip (opt_str en) = EmptyString)
    (Hd : py_int s = Some d) :
  let td := Z.max 3 (Z.min d 60) in
  let fd := Z.max 1 (Z.min d 30) in
  let req := mk_req (Some z) (Some s) st en in
  fst (ghi_trend ZL rq req) = [QTrendDays (py_strip z) td]
  /\ (forall rows, rq (QTrendDays (py_strip z) td) = Ok rows ->
        snd (ghi_trend ZL rq req)
          = mk_resp 200 (BTrend (py_strip z) (series_of rows) (EchoDays td)))
  /\ 3 <= td <= 60 /\ (3 <= d <= 60 -> td = d) /\ (d < 3 -> td = 3) /\ (60 < d -> td = 60)
  /\ fst (forecast_api ZL rq req)
       = [if Z.eqb fd 7 then QForecastTable (py_strip z) else QForecastOnTheFly (py_strip z) fd]
  /\ 1 <= fd <= 30 /\ (1 <= d <= 30 -> fd = d) /\ (d < 1 -> fd = 1) /\ (30 < d -> fd = 30).
Proof.
  intros td fd req.
  assert (Hne : String.eqb (py_strip z) EmptyString = false)
    by (apply String.eqb_neq; exact Hz').
  assert (Hnr : negb (String.eqb (py_strip (opt_str st)) EmptyString)
                && negb (String.eqb (py_strip (opt_str en)) EmptyString) = false)
    by (destruct Hrange as [H|H]; rewrite H; [reflexivity|apply andb_false_r]).
  assert (Hpd : parse_days (Some s) = d) by (simpl; rewrite Hd; reflexivity).
  unfold ghi_trend, forecast_api, ghi_trend_step, forecast_api_step, req; cbn zeta.
  cbn [p_zip p_days p_start p_end].
  change (opt_str (Some z)) with z.
  unfold default_zip. rewrite Hne. cbn [exc_bind]. rewrite Hz. cbn [negb].
  rewrite Hnr, Hpd. fold td fd.
  split; [reflexivity|]. split.
  { intros rows Hrows. unfold run_handler. rewrite Hrows. reflexivity. }
  unfold td, fd. repeat split; intros; lia.
Qed.

(** C10: on both endpoints a [days] value that [int()] rejects is treated
    exactly like a missing one: the whole outcome (queries and response) is
    the same, and the day count before clamping is 7. *)
Theorem malformed_days_as_missing (ZL : list string) (rq : query -> exc sql_rows)
    (req : http_req) (s : string) (Hs : py_int s = None) :
  ghi_trend ZL rq (with_days req (Some s)) = ghi_trend ZL rq (with_days req None)
  /\ forecast_api ZL rq (with_days req (Some s)) = forecast_api ZL rq (with_days req None)
  /\ parse_days (Some s) = 7 /\ parse_days None = 7.
Proof.
  assert (Hpd : parse_days (Some s) = 7) by (simpl; rewrite Hs; reflexivity).
  unfold ghi_trend, forecast_api, ghi_trend_step, forecast_api_step, with_days; cbn zeta.
  cbn [p_days p_zip p_start p_end]. rewrite Hpd. repeat split.
Qed.


(** C4: whatever the geocoding and weather services answer,
    [fetch_daily_record] returns a record and never raises; when geocoding
    or the weather fetch raises, the record is the fallback one: today's
    date, the stripped ZIP, GHI = DNI = DHI = cloud cover = 0, temperature
    20 and source "FALLBACK". *)
Theorem fetch_daily_record_fallback (http_get_zip : string -> exc json)
    (http_get_meteo : Q -> Q -> exc json) (py_float : json -> exc Q)
    (today : Z) (zip_code : string) :
  (exists r, fetch_daily_record http_get_zip http_get_meteo py_float today zip_code = Ok r)
  /\ ((exists e, _zip_to_latlon http_get_zip py_float zip_code = Raise e
         \/ exists ll, _zip_to_latlon http_get_zip py_float zip_code = Ok ll
                       /\ _open_meteo_daily_means http_get_meteo (fst ll) (snd ll) = Raise e) ->
      fetch_daily_record http_get_zip http_get_meteo py_float today zip_code
        = Ok (mk_record today (py_strip zip_code) 0 0 0 0 20 "FALLBACK")).
Proof.
  unfold fetch_daily_record, try_except. split.
  - destruct (ll <- _zip_to_latlon http_get_zip py_float zip_code ;; _); eexists; reflexivity.
  - intros (e & [He | (ll & Hll & He)]).
    + rewrite He. reflexivity.
    + rewrite Hll. cbn [exc_bind]. rewrite He. reflexivity.
Qed.

(** C6: the summary generator never raises. Without the service it returns
    the heuristic text; with it, the service's text is returned when
    building the prompt and the call both succeed, and the heuristic text
    when the prompt cannot be built (no percent change to format) or the
    call raises. *)
Theorem aoai_summary_fallback (USE_AOAI : bool) (aoai_post : prompt -> exc string)
    (zip : string) (ghi dni cloud pct : option Q) :
  let res := aoai_summary_or_heuristic USE_AOAI aoai_post zip ghi dni cloud pct in
  let h := Heuristic (heuristic_summary zip ghi dni cloud pct) in
  (exists o, res = Ok o)
  /\ (USE_AOAI = false -> res = Ok h)
  /\ (USE_AOAI = true -> pct = None -> res = Ok h)
  /\ (USE_AOAI = true -> forall p e, pct = Some p ->
        aoai_post (mk_prompt zip (or0 ghi) (or0 dni) (or0 cloud) p) = Raise e -> res = Ok h)
  /\ (USE_AOAI = true -> forall p txt, pct = Some p ->
        aoai_post (mk_prompt zip (or0 ghi) (or0 dni) (or0 cloud) p) = Ok txt ->
        res = Ok (Narrative txt)).
Proof.
  cbv zeta. unfold aoai_summary_or_heuristic, try_except.
  split.
  { destruct USE_AOAI; cbn [negb]; [|eexists; reflexivity].
    destruct (p <- fmt_signed pct ;; _); eexists; reflexivity. }
  split; [intros ->; reflexivity|].
  split; [intros -> ->; reflexivity|].
  split.
  - intros -> p e -> He. cbn. rewrite He. reflexivity.
  - intros -> p txt -> Ht. cbn. rewrite Ht. reflexivity.
Qed.

(** C8: for an allowed ZIP and valid ISO dates [start], [end], the trend
    endpoint queries the range [lo .. hi] where [hi] is the later date and
    [lo] the earlier one, except that a span of more than 60 days is cut to
    [hi - 60 .. hi]; so the span is at most 60 days and [hi] is kept. *)
Theorem trend_date_range_clamped (ZL : list string) (rq : query -> exc sql_rows)
    (z s e : string) (dp : option string) (ds de : Z)
    (Hz : in_allowed ZL (py_strip z) = true)
    (Hz' : py_strip z <> EmptyString)
    (Hs : iso_match s = true) (He : iso_match e = true)
    (Hds : strptime_date s = Some ds) (Hde : strptime_date e = Some de) :
  let lo0 := Z.min ds de in
  let hi := Z.max ds de in
  let lo := if 60 <? hi - lo0 then hi - 60 else lo0 in
  let req := mk_req (Some z) dp (Some s) (Some e) in
  fst (ghi_trend ZL rq req) = [QTrendRange (py_strip z) lo hi]
  /\ (forall rows, rq (QTrendRange (py_strip z) lo hi) = Ok rows ->
        snd (ghi_trend ZL rq req)
          = mk_resp 200 (BTrend (py_strip z) (series_of rows) (EchoRange lo hi)))
  /\ lo <= hi /\ hi - lo <= 60
  /\ (hi - lo0 <= 60 -> lo = lo0)
  /\ (60 < hi - lo0 -> lo = hi - 60).
Proof.
  intros lo0 hi lo req.
  destruct (strptime_stripped s ds Hds) as [Hss Hsn].
  destruct (strptime_stripped e de Hde) as [Hes Hen].
  assert (Hne : String.eqb (py_strip z) EmptyString = false)
    by (apply String.eqb_neq; exact Hz').
  unfold ghi_trend, ghi_trend_step, req; cbn zeta.
  cbn [p_zip p_days p_start p_end opt_str].
  unfold default_zip. rewrite Hne. cbn [exc_bind]. rewrite Hz. cbn [negb].
  rewrite Hss, Hes.
  rewrite (proj2 (String.eqb_neq s EmptyString) Hsn).
  rewrite (proj2 (String.eqb_neq e EmptyString) Hen).
  rewrite Hs, He. cbn [negb andb orb]. rewrite Hds, Hde.
  rewrite swap_min_max. fold lo0 hi lo.
  split; [reflexivity|]. split.
  { intros rows Hrows. unfold run_handler. rewrite Hrows. reflexivity. }
  unfold lo, hi, lo0.
  destruct (60 <? Z.max ds de - Z.min ds de) eqn:E;
    [apply Z.ltb_lt in E | apply Z.ltb_ge in E]; repeat split; intros; lia.
Qed.

(** C9 (as amended): on the trend and forecast endpoints, a request whose
    [zip] parameter, once stripped of surrounding whitespace, is non-empty
    and not in the allow-list gets status 400 with a JSON error body, and no
    query is sent to the warehouse; on the trend endpoint, with an empty
    allow-list, a request with a missing or blank [zip] gets a 500 without
    any query. *)
Theorem disallowed_zip_rejected (ZL : list string) (rq : query -> exc sql_rows)
    (req : http_req)
    (Hz : py_strip (opt_str (p_zip req)) <> EmptyString)
    (Hna : in_allowed ZL (py_strip (opt_str (p_zip req))) = false) :
  let z := py_strip (opt_str (p_zip req)) in
  ghi_trend ZL rq req = ([], mk_resp 400 (BError ("zip " ++ z ++ " not allowed")))
  /\ forecast_api ZL rq req = ([], mk_resp 400 (BError ("zip " ++ z ++ " not allowed")))
  /\ (forall req', py_strip (opt_str (p_zip req')) = EmptyString ->
        ghi_trend [] rq req' = ([], mk_resp 500 (BError (error_str IndexError)))).
Proof.
  intros z.
  assert (Hne : String.eqb z EmptyString = false) by (apply String.eqb_neq; exact Hz).
  split; [|split].
  - unfold ghi_trend, ghi_trend_step; cbn zeta. fold z.
    unfold default_zip. rewrite Hne. cbn [exc_bind]. fold z in Hna. rewrite Hna. reflexivity.
  - unfold forecast_api, forecast_api_step; cbn zeta. fold z.
    unfold default_zip. rewrite Hne. cbn [exc_bind]. fold z in Hna. rewrite Hna. reflexivity.
  - intros req' H'. unfold ghi_trend, ghi_trend_step; cbn zeta.
    unfold default_zip. rewrite H'. reflexivity.
Qed.

(** Rows inserted by one run of the forecast writer are all dated tomorrow
    or later. *)
Lemma upsert_inserted_future (today : Z) (w : warehouse) (r : fcst_row) :
  In r (flat_map (fun l => map (fun d => mk_fcst (fst l) d (snd l) "7d_ma") (gen_dates today 7))
           (group_avg_ghi (filter (fun o => today - 6 <=? OBS_DATE o) (SOLAR_OBS w)))) ->
  today + 1 <= FCST_DATE r.
Proof.
  rewrite in_flat_map. intros (l & _ & Hr). rewrite in_map_iff in Hr.
  destruct Hr as (d & <- & Hd). simpl. exact (gen_dates_future today d 7 Hd).
Qed.

(** C5 (as amended): one run of the forecast writer keeps RAW and the
    forecast rows dated before tomorrow, and leaves, for every ZIP [z],
    exactly the future rows [today+1 .. today+7] carrying the average GHI of
    [z]'s RAW rows dated [today - 6] or later, when [z] has such rows, and no
    future row otherwise; a second run with the same RAW data on the same
    day changes nothing. *)
Theorem upsert_forecast_7d_spec (today : Z) (w : warehouse) :
  let w' := upsert_forecast_7d today w in
  SOLAR_OBS w' = SOLAR_OBS w
  /\ filter (fun r => negb (today + 1 <=? FCST_DATE r)) (FORECAST_7D w')
     = filter (fun r => negb (today + 1 <=? FCST_DATE r)) (FORECAST_7D w)
  /\ gen_dates today 7
     = [today + 1; today + 2; today + 3; today + 4; today + 5; today + 6; today + 7]
  /\ (forall z, future_rows_of today z (FORECAST_7D w')
        = match window_rows today (SOLAR_OBS w) z with
          | [] => []
          | rows => map (fun d => mk_fcst z d (sql_avg (map GHI rows)) "7d_ma")
                        (gen_dates today 7)
          end)
  /\ upsert_forecast_7d today w' = w'.
Proof.
  cbv zeta.
  set (W := filter (fun o => today - 6 <=? OBS_DATE o) (SOLAR_OBS w)).
  set (kept := filter (fun r => negb (today + 1 <=? FCST_DATE r)) (FORECAST_7D w)).
  set (ins := flat_map (fun l => map (fun d => mk_fcst (fst l) d (snd l) "7d_ma")
                                     (gen_dates today 7)) (group_avg_ghi W)).
  assert (Hw' : upsert_forecast_7d today w = mk_wh (SOLAR_OBS w) (kept ++ ins)) by reflexivity.
  assert (Hins : forall r, In r ins -> today + 1 <= FCST_DATE r)
    by (intros r; apply upsert_inserted_future).
  assert (Hins0 : filter (fun r => negb (today + 1 <=? FCST_DATE r)) ins = []).
  { apply filter_none. intros r Hr. apply negb_false_iff, Z.leb_le, Hins, Hr. }
  rewrite Hw'. cbn [SOLAR_OBS FORECAST_7D].
  split; [reflexivity|]. split.
  { rewrite filter_app, Hins0, app_nil_r. apply filter_idem. }
  split; [unfold gen_dates; cbn [map seq]; repeat (apply f_equal2; [lia|]); reflexivity|]. split.
  - intros z. unfold future_rows_of. rewrite filter_app.
    rewrite (filter_none _ kept).
    2:{ intros r Hr. unfold kept in Hr. apply filter_In in Hr as [_ Hr].
        apply negb_true_iff in Hr. rewrite Hr. apply andb_false_r. }
    cbn [app]. unfold ins, group_avg_ghi. rewrite filter_flat_map, flat_map_map'.
    cbn [fst snd].
    set (g := fun z' => map (fun d => mk_fcst z' d
                (sql_avg (map GHI (filter (fun o => String.eqb (ZIP o) z') W))) "7d_ma")
                (gen_dates today 7)).
    rewrite flat_map_ext with (g := fun z' => if String.eqb z' z then g z' else []).
    2:{ intros z'. fold (g z').
        destruct (String.eqb z' z) eqn:E.
        - apply String.eqb_eq in E. subst z'. apply filter_all.
          intros r Hr. unfold g in Hr. apply in_map_iff in Hr as (d & <- & Hd).
          cbn [f_ZIP FCST_DATE]. rewrite String.eqb_refl.
          apply Z.leb_le, (gen_dates_future today d 7 Hd).
        - apply filter_none. intros r Hr. unfold g in Hr.
          apply in_map_iff in Hr as (d & <- & Hd). cbn [f_ZIP]. rewrite E. reflexivity. }
    rewrite flat_map_select by apply NoDup_nodup.
    unfold window_rows. fold W.
    destruct (in_dec string_dec z (nodup string_dec (map ZIP W))) as [Hi|Hi];
      rewrite nodup_In, in_map_zip_filter in Hi;
      destruct (filter (fun o => String.eqb (ZIP o) z) W) eqn:Ef.
    + congruence.
    + unfold g. rewrite Ef. reflexivity.
    + reflexivity.
    + exfalso. apply Hi. discriminate.
  - unfold upsert_forecast_7d at 1. cbn [SOLAR_OBS FORECAST_7D].
    fold W. fold ins. rewrite filter_app, Hins0, app_nil_r.
    unfold kept. rewrite filter_idem. reflexivity.
Qed.

Local Open Scope string_scope.

(** C5, counterexample: a ZIP present in RAW whose observations are all
    older than the 7-day window gets no forecast row, not 7. *)
Lemma forecast_zip_without_recent_data :
  ~ (forall (today : Z) (w : warehouse) (z : string),
       In z (map ZIP (SOLAR_OBS w)) ->
       List.length (future_rows_of today z (FORECAST_7D (upsert_forecast_7d today w))) = 7%nat).
Proof.
  intros H.
  specialize (H 100 (mk_wh [mk_record 90 "95340"%string 500 400 100 10 20 "OPEN_METEO"%string] []) "95340"%string
                (or_introl eq_refl)).
  vm_compute in H. discriminate.
Qed.

(** C9, counterexample: with an empty allow-list (the environment sets
    ZIP_LIST to ""), a trend request naming a ZIP gets 400, not 500; and a
    blank, non-empty [zip] parameter is stripped and replaced by the first
    allowed ZIP, so it gets 200, not 400. *)
Lemma trend_zip_checks_counterexample :
  ~ (forall (rq : query -> exc sql_rows) (req : http_req),
       status_code (snd (ghi_trend (ZIP_LIST_of_env "") rq req)) = 500)
  /\ ~ (forall (ZL : list string) (rq : query -> exc sql_rows) (req : http_req) (z : string),
          p_zip req = Some z -> z <> EmptyString -> in_allowed ZL z = false ->
          status_code (snd (ghi_trend ZL rq req)) = 400).
Proof.
  split.
  - intros H. specialize (H (fun _ => Ok []) (mk_req (Some "93727") None None None)).
    vm_compute in H. discriminate.
  - intros H.
    specialize (H ["93727"] (fun _ => Ok []) (mk_req (Some " ") None None None) " "%string
                  eq_refl ltac:(discriminate) eq_refl).
    vm_compute in H. discriminate.
Qed.

(** Witness of C7: days "1", "1000" and "10" on the trend endpoint. *)
Lemma days_clamped_witness :
  fst (ghi_trend ["93727"] (fun _ => Ok []) (mk_req (Some "93727") (Some "1") None None))
    = [QTrendDays "93727" 3]
  /\ fst (ghi_trend ["93727"] (fun _ => Ok []) (mk_req (Some "93727") (Some "1000") None None))
    = [QTrendDays "93727" 60]
  /\ fst (ghi_trend ["93727"] (fun _ => Ok []) (mk_req (Some "93727") (Some "10") None None))
    = [QTrendDays "93727" 10].
Proof.
  split; [|split].
  - destruct (days_clamped ["93727"] (fun _ => Ok []) "93727" "1" None None 1
                eq_refl ltac:(vm_compute; discriminate) (or_introl eq_refl) eq_refl) as [H _].
    rewrite H. reflexivity.
  - destruct (days_clamped ["93727"] (fun _ => Ok []) "93727" "1000" None None 1000
                eq_refl ltac:(vm_compute; discriminate) (or_introl eq_refl) eq_refl) as [H _].
    rewrite H. reflexivity.
  - destruct (days_clamped ["93727"] (fun _ => Ok []) "93727" "10" None None 10
                eq_refl ltac:(vm_compute; discriminate) (or_introl eq_refl) eq_refl) as [H _].
    rewrite H. reflexivity.
Defined.

(** Witness of C8: a 90-day range 2024-01-01 .. 2024-03-31 is cut to the
    60 days ending on 2024-03-31. *)
Lemma trend_date_range_clamped_witness :
  fst (ghi_trend ["93727"] (fun _ => Ok [])
         (mk_req (Some "93727") None (Some "2024-01-01") (Some "2024-03-31")))
    = [QTrendRange "93727" (toordinal 2024 3 31 - 60) (toordinal 2024 3 31)]
  /\ toordinal 2024 3 31 - toordinal 2024 1 1 = 90.
Proof.
  split; [|reflexivity].
  destruct (trend_date_range_clamped ["93727"] (fun _ => Ok []) "93727" "2024-01-01" "2024-03-31"
              None (toordinal 2024 1 1) (toordinal 2024 3 31)
              eq_refl ltac:(vm_compute; discriminate) eq_refl eq_refl eq_refl eq_refl) as [H _].
  rewrite H. reflexivity.
Defined.

(** Witness of C9: ZIP 90210 is not in the allow-list [93727]. *)
Lemma disallowed_zip_rejected_witness :
  ghi_trend ["93727"] (fun _ => Ok []) (mk_req (Some "90210") (Some "7") None None)
    = ([], mk_resp 400 (BError "zip 90210 not allowed")).
Proof.
  destruct (disallowed_zip_rejected ["93727"] (fun _ => Ok [])
              (mk_req (Some "90210") (Some "7") None None)
              ltac:(vm_compute; discriminate) eq_refl) as [H _].
  rewrite H. reflexivity.
Defined.

(** Witness of C10: [days=abc] is answered like a request without [days]. *)
Lemma malformed_days_as_missing_witness :
  ghi_trend ["93727"] (fun _ => Ok []) (mk_req (Some "93727") (Some "abc") None None)
    = ghi_trend ["93727"] (fun _ => Ok []) (mk_req (Some "93727") None None None).
Proof.
  destruct (malformed_days_as_missing ["93727"] (fun _ => Ok [])
              (mk_req (Some "93727") None None None) "abc" eq_refl) as [H _].
  exact H.
Defined.

Local Close Scope string_scope.

(* ================================================================== *)
(** * Further properties of the code *)

Lemma env_entries_stripped (v : string) :
  Forall (fun z => z <> EmptyString /\ py_strip z = z) (ZIP_LIST_of_env v).
Proof.
  unfold ZIP_LIST_of_env. apply Forall_forall. intros z Hz.
  apply filter_In in Hz as [Hz Hne]. apply in_map_iff in Hz as (w & <- & _).
  split; [apply negb_true_iff, String.eqb_neq in Hne; exact Hne|].
  apply py_strip_idem.
Qed.

(** X1: whatever the ZIP_LIST setting holds, every entry of [ZIP_LIST] is
    non-empty and has no surrounding whitespace in the sense of
    [str.strip()] (Unicode white space and U+001C..U+001F included). *)
Theorem ZIP_LIST_entries_stripped (v : string) :
  Forall (fun z => z <> EmptyString /\ py_strip z = z) (ZIP_LIST_of_env v).
Proof. apply env_entries_stripped. Qed.

Lemma fetch_daily_record_fields (g : string -> exc json) (m : Q -> Q -> exc json)
    (f : json -> exc Q) (today : Z) (z : string) :
  exists r, fetch_daily_record g m f today z = Ok r
            /\ ZIP r = py_strip z /\ OBS_DATE r = today.
Proof.
  unfold fetch_daily_record, try_except.
  destruct (_zip_to_latlon g f z) as [ll|e]; cbn [exc_bind].
  - destruct (_open_meteo_daily_means m (fst ll) (snd ll)) as [mm|e]; cbn [exc_bind];
      eexists; split; [reflexivity| |reflexivity| ]; split; reflexivity.
  - eexists; split; [reflexivity|]. split; reflexivity.
Qed.

Lemma fetch_all_records (g : string -> exc json) (m : Q -> Q -> exc json)
    (f : json -> exc Q) (today : Z) (ZL : list string) :
  exists rows, exc_map (fetch_daily_record g m f today) ZL = Ok rows
               /\ map ZIP rows = map py_strip ZL
               /\ Forall (fun r => OBS_DATE r = today) rows.
Proof.
  induction ZL as [|z ZL (rows & Hrows & Hz & Hd)]; [exists []; auto|].
  destruct (fetch_daily_record_fields g m f today z) as (r & Hr & Hrz & Hrd).
  exists (r :: rows). cbn [exc_map]. rewrite Hr. cbn [exc_bind]. rewrite Hrows.
  split; [reflexivity|]. split; [simpl; rewrite Hrz, Hz; reflexivity|]. constructor; assumption.
Qed.

Lemma map_py_strip_env (v : string) : map py_strip (ZIP_LIST_of_env v) = ZIP_LIST_of_env v.
Proof.
  assert (H := env_entries_stripped v).
  induction H as [|z l [_ Hz] _ IH]; [reflexivity|]. simpl. rewrite Hz, IH. reflexivity.
Qed.

(** X2: with a reachable warehouse, an ingestion run appends to RAW one row
    per configured ZIP, in the allow-list's order, each dated today and
    carrying that ZIP, and changes nothing else; whatever the weather and
    geocoding services answer, it does not fail. *)
Theorem fetch_solar_data_appends (g : string -> exc json) (m : Q -> Q -> exc json)
    (f : json -> exc Q) (today : Z) (v : string) (w : warehouse) :
  exists rows,
    fetch_solar_data g m f today (ZIP_LIST_of_env v) None w
      = Ok (mk_wh (SOLAR_OBS w ++ rows) (FORECAST_7D w))
    /\ map ZIP rows = ZIP_LIST_of_env v
    /\ Forall (fun r => OBS_DATE r = today) rows.
Proof.
  destruct (fetch_all_records g m f today (ZIP_LIST_of_env v)) as (rows & Hrows & Hz & Hd).
  exists rows. unfold fetch_solar_data. rewrite Hrows. cbn [exc_bind].
  rewrite map_py_strip_env in Hz.
  split; [|split; assumption].
  destruct rows; reflexivity || (simpl; rewrite app_nil_r; destruct w; reflexivity).
Qed.

(** X3: re-running ingestion on the same day, with the same answers from
    the services, appends the same rows again: RAW gets duplicate rows for
    each ZIP and day, nothing is replaced. *)
Theorem fetch_solar_data_twice_duplicates (g : string -> exc json) (m : Q -> Q -> exc json)
    (f : json -> exc Q) (today : Z) (ZL : list string) (w : warehouse) :
  exists rows,
    (w1 <- fetch_solar_data g m f today ZL None w ;; fetch_solar_data g m f today ZL None w1)
      = Ok (mk_wh (SOLAR_OBS w ++ rows ++ rows) (FORECAST_7D w))
    /\ map ZIP rows = map py_strip ZL.
Proof.
  destruct (fetch_all_records g m f today ZL) as (rows & Hrows & Hz & _).
  exists rows. unfold fetch_solar_data. rewrite Hrows. cbn [exc_bind].
  split; [|exact Hz].
  destruct rows as [|r rs]; [simpl; rewrite !app_nil_r; destruct w; reflexivity|].
  cbn [insert_rows exc_bind SOLAR_OBS FORECAST_7D].
  rewrite app_assoc. reflexivity.
Qed.

(** X4: the warehouse is contacted only when there is a row to write: with
    an empty allow-list the run succeeds and leaves the warehouse unchanged
    even when the warehouse is unreachable, while with at least one ZIP a
    warehouse error aborts the run and propagates. *)
Theorem fetch_solar_data_warehouse_errors (g : string -> exc json) (m : Q -> Q -> exc json)
    (f : json -> exc Q) (today : Z) (ZL : list string) (db_fail : option py_error)
    (w : warehouse) :
  fetch_solar_data g m f today [] db_fail w = Ok w
  /\ (forall e, ZL <> [] -> fetch_solar_data g m f today ZL (Some e) w = Raise e).
Proof.
  split; [reflexivity|].
  intros e Hne. destruct (fetch_all_records g m f today ZL) as (rows & Hrows & Hz & _).
  unfold fetch_solar_data. rewrite Hrows. cbn [exc_bind].
  destruct rows as [|r rs]; [|reflexivity].
  destruct ZL; [congruence|discriminate].
Qed.

Lemma str_lt_trans (x y z : string) :
  String_as_OT.lt x y -> String_as_OT.lt y z -> String_as_OT.lt x z.
Proof. apply StrictOrder_Transitive. Qed.

Lemma str_lt_irrefl (x : string) : ~ String_as_OT.lt x x.
Proof. apply StrictOrder_Irreflexive. Qed.

Lemma insert_uniq_In (x z : string) (l : list string) :
  In z (insert_uniq x l) <-> x = z \/ In z l.
Proof.
  induction l as [|y l IH]; simpl; [tauto|].
  unfold str_compare. destruct (String_as_OT.compare_spec x y) as [Hxy|Hxy|Hxy].
  - unfold String_as_OT.eq in Hxy. subst. simpl. tauto.
  - simpl. tauto.
  - simpl. rewrite IH. tauto.
Qed.

Lemma insert_uniq_sorted (x : string) (l : list string) :
  StronglySorted String_as_OT.lt l -> StronglySorted String_as_OT.lt (insert_uniq x l).
Proof.
  induction l as [|y l IH]; intros Hs; simpl.
  - repeat constructor.
  - inversion Hs as [|? ? Hs' Hall]; subst.
    unfold str_compare. destruct (String_as_OT.compare_spec x y) as [Hxy|Hxy|Hxy].
    + exact Hs.
    + constructor; [exact Hs|]. constructor; [exact Hxy|].
      eapply Forall_impl; [|exact Hall]. intros a Ha. eapply str_lt_trans; eassumption.
    + constructor; [apply IH; exact Hs'|].
      apply Forall_forall. intros a Ha. apply insert_uniq_In in Ha as [->|Ha]; [exact Hxy|].
      rewrite Forall_forall in Hall. apply Hall, Ha.
Qed.

Lemma sorted_same_members (l1 l2 : list string) :
  StronglySorted String_as_OT.lt l1 -> StronglySorted String_as_OT.lt l2 ->
  (forall z, In z l1 <-> In z l2) -> l1 = l2.
Proof.
  revert l2. induction l1 as [|a l1 IH]; intros l2 H1 H2 Hin.
  - destruct l2 as [|b l2]; [reflexivity|]. exfalso. apply (proj2 (Hin b)). left; reflexivity.
  - destruct l2 as [|b l2]; [exfalso; apply (proj1 (Hin a)); left; reflexivity|].
    inversion H1 as [|? ? H1' A1]; inversion H2 as [|? ? H2' A2]; subst.
    rewrite Forall_forall in A1, A2.
    assert (Hab : a = b).
    { destruct (proj1 (Hin a) (or_introl eq_refl)) as [|Ha]; [congruence|].
      destruct (proj2 (Hin b) (or_introl eq_refl)) as [|Hb]; [congruence|].
      exfalso. apply (str_lt_irrefl a). eapply str_lt_trans; [apply A1, Hb | apply A2, Ha]. }
    subst b. f_equal. apply IH; [exact H1'|exact H2'|].
    intros z. split; intros Hz.
    + destruct (proj1 (Hin z) (or_intror Hz)) as [<-|Hz']; [|exact Hz'].
      exfalso. apply (str_lt_irrefl a), A1, Hz.
    + destruct (proj2 (Hin z) (or_intror Hz)) as [<-|Hz']; [|exact Hz'].
      exfalso. apply (str_lt_irrefl a), A2, Hz.
Qed.

(** X5: [/zips] answers 200 with the configured ZIPs in strictly increasing
    (code-point) order, each once, exactly the members of the allow-list;
    it is the only such list, so it is Python's [sorted(set(ZIP_LIST))]. *)
Theorem list_zips_sorted_set (ZL : list string) :
  let (st, zs) := list_zips ZL in
  st = 200
  /\ StronglySorted String_as_OT.lt zs
  /\ NoDup zs
  /\ (forall z, In z zs <-> In z ZL)
  /\ (forall l, StronglySorted String_as_OT.lt l -> (forall z, In z l <-> In z ZL) -> l = zs).
Proof.
  unfold list_zips.
  assert (Hs : StronglySorted String_as_OT.lt (py_sorted_set ZL)).
  { unfold py_sorted_set. induction ZL as [|x ZL IH]; simpl; [constructor|].
    apply insert_uniq_sorted, IH. }
  assert (Hin : forall z, In z (py_sorted_set ZL) <-> In z ZL).
  { clear Hs. intros z. unfold py_sorted_set. induction ZL as [|x ZL IH]; simpl; [tauto|].
    rewrite insert_uniq_In, IH. tauto. }
  split; [reflexivity|]. split; [exact Hs|]. split.
  - clear Hin. induction Hs as [|a l Hs IH Hall]; [constructor|].
    constructor; [|exact IH].
    rewrite Forall_forall in Hall. intros Ha. apply (str_lt_irrefl a), Hall, Ha.
  - split; [exact Hin|].
    intros l Hl Hl'. apply sorted_same_members; [exact Hl|exact Hs|].
    intros z. rewrite Hl', Hin. reflexivity.
Qed.

Local Open Scope Q_scope.

Lemma fold_left_Qplus (xs : list Q) (a : Q) :
  fold_left Qplus xs a == a + fold_right Qplus 0 xs.
Proof.
  revert a. induction xs as [|x xs IH]; intros a; simpl.
  - ring.
  - rewrite IH. ring.
Qed.

(** X7: when geocoding succeeds but the weather answer has no "hourly"
    member, the record is not the fallback one: it carries source
    "OPEN_METEO" and all five metrics 0, temperature included (the
    fallback has 20). *)
Theorem fetch_without_hourly (g : string -> exc json) (m : Q -> Q -> exc json)
    (f : json -> exc Q) (today : Z) (zip_code : string) (ll : Q * Q)
    (kv : list (string * json))
    (Hgeo : _zip_to_latlon g f zip_code = Ok ll)
    (Hmet : m (fst ll) (snd ll) = Ok (JObj kv))
    (Hno : find (fun p => String.eqb (fst p) "hourly") kv = None) :
  fetch_daily_record g m f today zip_code
    = Ok (mk_record today (py_strip zip_code) 0 0 0 0 0 "OPEN_METEO").
Proof.
  unfold fetch_daily_record, try_except. rewrite Hgeo. cbn [exc_bind].
  unfold _open_meteo_daily_means. rewrite Hmet. cbn [exc_bind].
  unfold json_get_default, json_get at 1. rewrite Hno. reflexivity.
Qed.

(** X8: when the geocoder answers without usable places ("places"
    missing, or present but falsy: null, an empty list, an empty object,
    ...), the record is the fallback one. *)
Theorem fetch_without_places (g : string -> exc json) (m : Q -> Q -> exc json)
    (f : json -> exc Q) (today : Z) (zip_code : string) (r p : json)
    (Hgeo : g (py_strip zip_code) = Ok r)
    (Hpl : json_get_default r "places" (JArr []) = Ok p)
    (Hf : json_truthy p = false) :
  fetch_daily_record g m f today zip_code = Ok (fallback_record today zip_code).
Proof.
  unfold fetch_daily_record, try_except, _zip_to_latlon. rewrite Hgeo. cbn [exc_bind].
  rewrite Hpl. cbn [exc_bind].
  destruct p as [|b|z|q|s|[|x xs]|[|x xs]]; cbn [json_truthy] in Hf |- *;
    try discriminate; rewrite ?Hf; reflexivity.
Qed.

Local Close Scope Q_scope.

Local Open Scope string_scope.

(** Witness of X7: the geocoder finds one place, the weather service
    answers an empty object. *)
Lemma fetch_without_hourly_witness :
  fetch_daily_record (fun _ => Ok (JObj [("places", JArr [JObj [("latitude", JInt 36); ("longitude", JInt (-119))]])])) (fun _ _ => Ok (JObj []))
    (fun _ => Ok 1%Q) 739000 " 93727 "
  = Ok (mk_record 739000 "93727" 0 0 0 0 0 "OPEN_METEO").
Proof.
  change "93727" with (py_strip " 93727 ").
  apply (fetch_without_hourly (fun _ => Ok (JObj [("places", JArr [JObj [("latitude", JInt 36); ("longitude", JInt (-119))]])])) (fun _ _ => Ok (JObj []))
           (fun _ => Ok 1%Q) 739000 " 93727 " (1%Q, 1%Q) []); reflexivity.
Defined.

(** Witness of X8: the geocoder answers {"places": []}. *)
Lemma fetch_without_places_witness :
  fetch_daily_record (fun _ => Ok (JObj [("places", JArr [])])) (fun _ _ => Ok (JObj []))
    (fun _ => Ok 1%Q) 739000 "93727"
  = Ok (fallback_record 739000 "93727").
Proof.
  apply (fetch_without_places (fun _ => Ok (JObj [("places", JArr [])]))
           (fun _ _ => Ok (JObj [])) (fun _ => Ok 1%Q) 739000 "93727"
           (JObj [("places", JArr [])]) (JArr [])); reflexivity.
Defined.

Local Close Scope string_scope.

(* ------------------------------------------------------------------ *)
(** ** Read API handlers *)

Local Open Scope string_scope.

(** X9: on the forecast endpoint, a request for an allowed ZIP sends one
    query: the stored FORECAST_7D rows of the ZIP when the clamped day count
    is 7, the on-the-fly constant average over that many days otherwise; the
    day count is 7 exactly when the parsed [days] is 7 (so when it is
    missing or malformed). The answer is 200 with the rows, NULL values
    read as 0, or 500 when the warehouse raises. *)
Theorem forecast_api_allowed (ZL : list string) (rq : query -> exc sql_rows)
    (req : http_req) (z : string)
    (Hz : py_strip (opt_str (p_zip req)) = z) (Hne : z <> EmptyString)
    (Ha : in_allowed ZL z = true) :
  let days := Z.max 1 (Z.min (parse_days (p_days req)) 30) in
  let q := if Z.eqb days 7 then QForecastTable z else QForecastOnTheFly z days in
  forecast_api ZL rq req
    = ([q], match rq q with
            | Ok rows => mk_resp 200 (BForecast z days (series_of rows))
            | Raise e => resp500 e
            end)
  /\ (days = 7 <-> parse_days (p_days req) = 7)
  /\ (1 <= days <= 30)%Z.
Proof.
  cbv zeta. split; [|split; [lia|lia]].
  unfold forecast_api, forecast_api_step. cbv zeta. rewrite Hz.
  unfold default_zip. rewrite (proj2 (String.eqb_neq z EmptyString) Hne).
  cbn [exc_bind]. rewrite Ha. reflexivity.
Qed.

(** X10: on both endpoints, a request whose [zip] is missing or blank is
    answered as the same request naming the first allowed ZIP, when that
    entry is already stripped (as every entry of [ZIP_LIST] is). *)
Theorem missing_zip_defaults_to_first (a : string) (rest : list string)
    (rq : query -> exc sql_rows) (req : http_req)
    (Ha : py_strip a = a)
    (Hb : py_strip (opt_str (p_zip req)) = EmptyString) :
  let req' := mk_req (Some a) (p_days req) (p_start req) (p_end req) in
  ghi_trend (a :: rest) rq req = ghi_trend (a :: rest) rq req'
  /\ forecast_api (a :: rest) rq req = forecast_api (a :: rest) rq req'.
Proof.
  cbv zeta.
  assert (D1 : default_zip (a :: rest) (py_strip (opt_str (p_zip req))) = Ok a)
    by (rewrite Hb; reflexivity).
  assert (D2 : default_zip (a :: rest) (py_strip (opt_str (Some a))) = Ok a).
  { cbn [opt_str]. rewrite Ha. unfold default_zip.
    destruct (String.eqb a EmptyString); reflexivity. }
  split.
  - unfold ghi_trend, ghi_trend_step. cbv zeta. rewrite D1.
    cbn [p_zip p_days p_start p_end]. rewrite D2. reflexivity.
  - unfold forecast_api, forecast_api_step. cbv zeta. rewrite D1.
    cbn [p_zip p_days p_start p_end]. rewrite D2. reflexivity.
Qed.

(** X11: with an empty allow-list neither read endpoint ever queries the
    warehouse: a missing or blank [zip] gets a 500 (indexing the empty
    list), any other [zip] a 400 "not allowed". *)
Theorem empty_allow_list_no_query (rq : query -> exc sql_rows) (req : http_req) :
  let z := py_strip (opt_str (p_zip req)) in
  let r := if String.eqb z EmptyString then ([], resp500 IndexError)
           else ([], zip_not_allowed z) in
  ghi_trend [] rq req = r /\ forecast_api [] rq req = r.
Proof.
  cbv zeta. unfold ghi_trend, ghi_trend_step, forecast_api, forecast_api_step.
  cbv zeta. unfold default_zip.
  destruct (String.eqb (py_strip (opt_str (p_zip req))) EmptyString); split; reflexivity.
Qed.

(** X12: on the trend endpoint, a date range is used only when both
    [start] and [end] are non-blank; with either one missing or blank the
    request is answered as if neither were given (the [days] path). *)
Theorem trend_partial_range_ignored (ZL : list string) (rq : query -> exc sql_rows)
    (req : http_req)
    (Hp : py_strip (opt_str (p_start req)) = EmptyString
          \/ py_strip (opt_str (p_end req)) = EmptyString) :
  ghi_trend ZL rq req = ghi_trend ZL rq (mk_req (p_zip req) (p_days req) None None).
Proof.
  unfold ghi_trend, ghi_trend_step. cbv zeta. cbn [p_zip p_days p_start p_end opt_str].
  destruct (default_zip ZL (py_strip (opt_str (p_zip req)))) as [z|e];
    cbn [exc_bind]; [|reflexivity].
  destruct (negb (in_allowed ZL z)); [reflexivity|].
  replace (py_strip EmptyString) with EmptyString by reflexivity.
  rewrite String.eqb_refl. cbn [negb andb].
  destruct Hp as [H|H]; rewrite H, String.eqb_refl; cbn [negb andb];
    [reflexivity | rewrite andb_false_r; reflexivity].
Qed.

(** X13: on the trend endpoint, for an allowed ZIP with non-blank [start]
    and [end]: if either does not match [^\d{4}-\d{2}-\d{2}$] ([\d] being
    any Unicode decimal digit) the answer is 400 "start/end must be
    YYYY-MM-DD"; if both match but [strptime] rejects one (an impossible
    date such as 2024-02-30, or a month written with non-ASCII digits) the
    answer is a 500. No query is sent in either case. *)
Theorem trend_range_rejected (ZL : list string) (rq : query -> exc sql_rows)
    (req : http_req) (z s e : string)
    (Hz : py_strip (opt_str (p_zip req)) = z) (Hne : z <> EmptyString)
    (Ha : in_allowed ZL z = true)
    (Hs : py_strip (opt_str (p_start req)) = s) (Hsn : s <> EmptyString)
    (He : py_strip (opt_str (p_end req)) = e) (Hen : e <> EmptyString) :
  (iso_match s = false \/ iso_match e = false ->
     ghi_trend ZL rq req = ([], mk_resp 400 (BError "start/end must be YYYY-MM-DD")))
  /\ (iso_match s = true -> iso_match e = true ->
      strptime_date s = None \/ strptime_date e = None ->
      fst (ghi_trend ZL rq req) = [] /\ status_code (snd (ghi_trend ZL rq req)) = 500).
Proof.
  assert (Hstep : forall k, ghi_trend ZL rq req = k ->
    k = run_handler rq
      (if negb (iso_match s) || negb (iso_match e) then
         Ok (Answer (mk_resp 400 (BError "start/end must be YYYY-MM-DD")))
       else
         match strptime_date s, strptime_date e with
         | Some d_start0, Some d_end0 =>
             let '(d_start1, d_end) :=
               if (d_end0 <? d_start0)%Z then (d_end0, d_start0) else (d_start0, d_end0) in
             let d_start := if (60 <? d_end - d_start1)%Z then (d_end - 60)%Z else d_start1 in
             Ok (RunQuery (QTrendRange z d_start d_end)
                   (fun rows => mk_resp 200 (BTrend z (series_of rows)
                                                (EchoRange d_start d_end))))
         | _, _ => Raise ValueError
         end)).
  { intros k <-. unfold ghi_trend, ghi_trend_step. cbv zeta. rewrite Hz, Hs, He.
    unfold default_zip. rewrite (proj2 (String.eqb_neq z EmptyString) Hne).
    cbn [exc_bind]. rewrite Ha.
    rewrite (proj2 (String.eqb_neq s EmptyString) Hsn).
    rewrite (proj2 (String.eqb_neq e EmptyString) Hen). reflexivity. }
  specialize (Hstep _ eq_refl). split.
  - intros Hbad. rewrite Hstep.
    destruct Hbad as [H|H]; rewrite H; [reflexivity|].
    rewrite orb_true_r. reflexivity.
  - intros H1 H2 Hnone. rewrite Hstep, H1, H2. cbn [negb orb].
    destruct Hnone as [H|H]; rewrite H;
      [|destruct (strptime_date s)]; split; reflexivity.
Qed.

(** Witness of X9: days=0 on the forecast endpoint is clamped to 1 and
    computed on the fly; a NULL average is shown as 0. *)
Lemma forecast_api_allowed_witness :
  forecast_api ["93727"] (fun _ => Ok [("2024-01-02", None)])
    (mk_req (Some " 93727") (Some "0") None None)
  = ([QForecastOnTheFly "93727" 1], mk_resp 200 (BForecast "93727" 1 [("2024-01-02", 0%Q)])).
Proof.
  destruct (forecast_api_allowed ["93727"] (fun _ => Ok [("2024-01-02", None)])
              (mk_req (Some " 93727") (Some "0") None None) "93727"
              eq_refl ltac:(discriminate) eq_refl) as [H _].
  rewrite H. reflexivity.
Defined.

(** Witness of X10: no [zip] with the allow-list [93727; 93637]. *)
Lemma missing_zip_defaults_to_first_witness :
  ghi_trend ["93727"; "93637"] (fun _ => Ok []) (mk_req None (Some "10") None None)
  = ghi_trend ["93727"; "93637"] (fun _ => Ok []) (mk_req (Some "93727") (Some "10") None None)
  /\ forecast_api ["93727"; "93637"] (fun _ => Ok []) (mk_req None (Some "10") None None)
  = forecast_api ["93727"; "93637"] (fun _ => Ok []) (mk_req (Some "93727") (Some "10") None None).
Proof.
  exact (missing_zip_defaults_to_first "93727" ["93637"] (fun _ => Ok [])
           (mk_req None (Some "10") None None) eq_refl eq_refl).
Defined.

(** Witness of X12: a [start] without [end]. *)
Lemma trend_partial_range_ignored_witness :
  ghi_trend ["93727"] (fun _ => Ok []) (mk_req (Some "93727") (Some "10") (Some "2024-01-01") None)
  = ghi_trend ["93727"] (fun _ => Ok []) (mk_req (Some "93727") (Some "10") None None).
Proof.
  exact (trend_partial_range_ignored ["93727"] (fun _ => Ok [])
           (mk_req (Some "93727") (Some "10") (Some "2024-01-01") None) (or_intror eq_refl)).
Defined.

(** Witness of X13: 2024/01/01 is refused with a 400, 2024-02-30 with a 500. *)
Lemma trend_range_rejected_witness :
  ghi_trend ["93727"] (fun _ => Ok [])
    (mk_req (Some "93727") None (Some "2024/01/01") (Some "2024-01-31"))
  = ([], mk_resp 400 (BError "start/end must be YYYY-MM-DD"))
  /\ fst (ghi_trend ["93727"] (fun _ => Ok [])
            (mk_req (Some "93727") None (Some "2024-02-30") (Some "2024-03-01"))) = []
  /\ status_code (snd (ghi_trend ["93727"] (fun _ => Ok [])
            (mk_req (Some "93727") None (Some "2024-02-30") (Some "2024-03-01")))) = 500.
Proof.
  split.
  - destruct (trend_range_rejected ["93727"] (fun _ => Ok [])
                (mk_req (Some "93727") None (Some "2024/01/01") (Some "2024-01-31"))
                "93727" "2024/01/01" "2024-01-31" eq_refl ltac:(discriminate) eq_refl
                eq_refl ltac:(discriminate) eq_refl ltac:(discriminate)) as [H _].
    apply H. left. reflexivity.
  - destruct (trend_range_rejected ["93727"] (fun _ => Ok [])
                (mk_req (Some "93727") None (Some "2024-02-30") (Some "2024-03-01"))
                "93727" "2024-02-30" "2024-03-01" eq_refl ltac:(discriminate) eq_refl
                eq_refl ltac:(discriminate) eq_refl ltac:(discriminate)) as [_ H].
    apply H; [reflexivity | reflexivity | left; reflexivity].
Defined.

Local Close Scope string_scope.

(* ------------------------------------------------------------------ *)
(** ** Insights run and [/ghitoday] *)

Lemma py_sorted_set_In (z : string) (l : list string) :
  In z (py_sorted_set l) <-> In z l.
Proof.
  unfold py_sorted_set. induction l as [|x l IH]; simpl; [tauto|].
  rewrite insert_uniq_In, IH. tauto.
Qed.

Lemma py_sorted_set_sorted (l : list string) :
  StronglySorted String_as_OT.lt (py_sorted_set l).
Proof.
  unfold py_sorted_set. induction l as [|x l IH]; simpl; [constructor|].
  apply insert_uniq_sorted, IH.
Qed.

Lemma sorted_NoDup (l : list string) :
  StronglySorted String_as_OT.lt l -> NoDup l.
Proof.
  induction 1 as [|a l Hs IH Hall]; constructor; [|exact IH].
  rewrite Forall_forall in Hall. intros Ha. apply (str_lt_irrefl a), Hall, Ha.
Qed.

Lemma group_avg_None (col : obs_record -> Q) (rows : list obs_record) (z : string) :
  group_avg col rows z = None <-> ~ (exists o, In o rows /\ ZIP o = z).
Proof.
  unfold group_avg.
  destruct (filter (fun o => String.eqb (ZIP o) z) rows) as [|o g] eqn:E.
  - split; [intros _ Hex; destruct Hex as (o & Ho & Hz)|reflexivity].
    assert (Hin : In o (filter (fun o => String.eqb (ZIP o) z) rows))
      by (apply filter_In; split; [exact Ho | apply String.eqb_eq, Hz]).
    rewrite E in Hin. exact Hin.
  - split; [discriminate|]. intros H. exfalso. apply H.
    assert (Hin : In o (filter (fun o => String.eqb (ZIP o) z) rows)) by (rewrite E; left; reflexivity).
    apply filter_In in Hin as [Ho Hz]. exists o. split; [exact Ho | apply String.eqb_eq, Hz].
Qed.

Lemma fold_filters {A B} (f : B -> A -> bool) (ps : list B) (S : list A) :
  fold_left (fun acc p => filter (f p) acc) ps S
  = filter (fun r => forallb (fun p => f p r) ps) S.
Proof.
  revert S. induction ps as [|p ps IH]; intros S; simpl.
  - symmetry. apply filter_all. reflexivity.
  - rewrite IH. induction S as [|x S IHS]; [reflexivity|]. simpl.
    destruct (f p x); simpl; [destruct (forallb (fun p => f p x) ps); simpl; [f_equal|]|];
      exact IHS.
Qed.

Lemma summary_pairs_Ok (U : bool) (ap : prompt -> exc string) (data : list tvb_row) :
  exists pairs, exc_map (summary_pair U ap) data = Ok pairs /\ map fst pairs = map t_ZIP data.
Proof.
  induction data as [|row data (pairs & Hp & Hf)]; [exists []; split; reflexivity|].
  cbn [exc_map]. unfold summary_pair at 1.
  assert (Hs : exists out, aoai_summary_or_heuristic U ap (t_ZIP row) (GHI_TODAY row)
             (DNI_TODAY row) (CLOUD_TODAY row) (_pct_change (GHI_TODAY row) (GHI_30D row)) = Ok out).
  { unfold aoai_summary_or_heuristic, try_except. destruct (negb U); [eexists; reflexivity|].
    destruct (p <- fmt_signed _ ;; _); eexists; reflexivity. }
  destruct Hs as (out & Hs). rewrite Hs. cbn [exc_bind]. rewrite Hp. cbn [exc_bind].
  exists ((t_ZIP row, out) :: pairs). split; [reflexivity|]. simpl. f_equal. exact Hf.
Qed.


Lemma forallb_not_listed (b : bool) (x : string) (pairs : list (string * summary_out)) :
  forallb (fun p => negb (b && String.eqb x (fst p))) pairs
  = negb (b && existsb (String.eqb x) (map fst pairs)).
Proof.
  induction pairs as [|p pairs IH]; simpl; [destruct b; reflexivity|].
  rewrite IH. destruct b, (String.eqb x (fst p)); reflexivity.
Qed.

Lemma upsert_summaries_eq (today : Z) (pairs : list (string * summary_out))
    (S : list summary_row) :
  _upsert_summaries today pairs S
  = filter (fun r => negb (Z.eqb (SUMMARY_DATE r) today
                           && existsb (String.eqb (s_ZIP r)) (map fst pairs))) S
    ++ map (fun p => mk_summary today (fst p) (snd p)) pairs.
Proof.
  unfold _upsert_summaries. rewrite fold_filters. f_equal.
  apply filter_ext. intros r. apply forallb_not_listed.
Qed.

Lemma new_rows_listed (today : Z) (pairs : list (string * summary_out)) (r : summary_row) :
  In r (map (fun p => mk_summary today (fst p) (snd p)) pairs) ->
  SUMMARY_DATE r = today /\ In (s_ZIP r) (map fst pairs).
Proof.
  rewrite in_map_iff. intros (p & <- & Hp). cbn [SUMMARY_DATE s_ZIP].
  split; [reflexivity|]. apply in_map, Hp.
Qed.

Lemma existsb_eqb_In (x : string) (l : list string) :
  existsb (String.eqb x) l = true <-> In x l.
Proof.
  rewrite existsb_exists. split.
  - intros (y & Hy & E). apply String.eqb_eq in E. subst. exact Hy.
  - intros H. exists x. split; [exact H | apply String.eqb_refl].
Qed.

Lemma new_rows_one (today : Z) (z : string) (pairs : list (string * summary_out)) :
  NoDup (map fst pairs) -> In z (map fst pairs) ->
  exists t, filter (fun r => Z.eqb (SUMMARY_DATE r) today && String.eqb (s_ZIP r) z)
              (map (fun p => mk_summary today (fst p) (snd p)) pairs)
            = [mk_summary today z t].
Proof.
  induction pairs as [|p pairs IH]; intros Hnd Hin; [destruct Hin|].
  cbn [map] in Hnd, Hin. inversion Hnd as [|? ? Hp Hnd']; subst.
  cbn [map filter SUMMARY_DATE s_ZIP]. rewrite Z.eqb_refl. cbn [andb].
  destruct (String.eqb (fst p) z) eqn:E.
  - apply String.eqb_eq in E. subst z. exists (snd p). f_equal.
    apply filter_none. intros r Hr. apply new_rows_listed in Hr as [_ Hr].
    apply andb_false_iff. right. apply String.eqb_neq. intros Heq. rewrite Heq in Hr.
    exact (Hp Hr).
  - destruct Hin as [Hin|Hin]; [apply String.eqb_neq in E; congruence|].
    exact (IH Hnd' Hin).
Qed.

(** X15: when the warehouse statements succeed, an insights run completes
    whatever the narrative service does; it refreshes the forecast table
    and, in MART.SUMMARIES, leaves exactly one summary dated today for each
    ZIP it read (those with RAW rows dated today or in the 30 days before),
    whatever was there before, and keeps every other summary row as it
    was. *)
Theorem generate_insights_summaries (U : bool) (ap : prompt -> exc string)
    (today : Z) (d : db) :
  let zs := map t_ZIP (_fetch_today_vs_baseline today (SOLAR_OBS (wh d))) in
  exists d', generate_insights U ap today d = Ok d'
  /\ wh d' = upsert_forecast_7d today (wh d)
  /\ filter (fun r => negb (Z.eqb (SUMMARY_DATE r) today
                            && existsb (String.eqb (s_ZIP r)) zs)) (SUMMARIES d')
     = filter (fun r => negb (Z.eqb (SUMMARY_DATE r) today
                            && existsb (String.eqb (s_ZIP r)) zs)) (SUMMARIES d)
  /\ (forall z, In z zs ->
        exists t, filter (fun r => Z.eqb (SUMMARY_DATE r) today && String.eqb (s_ZIP r) z)
                    (SUMMARIES d') = [mk_summary today z t]).
Proof.
  cbv zeta.
  set (data := _fetch_today_vs_baseline today (SOLAR_OBS (wh d))).
  destruct (summary_pairs_Ok U ap data) as (pairs & Hp & Hf).
  assert (Hnd : NoDup (map fst pairs)).
  { rewrite Hf. apply sorted_NoDup. unfold data, _fetch_today_vs_baseline. cbv zeta.
    rewrite map_map. cbn [t_ZIP]. rewrite map_id. apply py_sorted_set_sorted. }
  exists (mk_db (upsert_forecast_7d today (wh d)) (_upsert_summaries today pairs (SUMMARIES d))).
  split; [unfold generate_insights; cbv zeta; fold data; rewrite Hp; reflexivity|].
  split; [reflexivity|]. cbn [SUMMARIES].
  rewrite upsert_summaries_eq, Hf. split.
  - rewrite filter_app, filter_idem.
    rewrite (filter_none _ (map _ pairs)); [apply app_nil_r|].
    intros r Hr. apply new_rows_listed in Hr as [Hd Hz]. rewrite <- Hf.
    rewrite Hd, Z.eqb_refl. cbn [andb]. apply negb_false_iff, existsb_eqb_In, Hz.
  - intros z Hz. rewrite filter_app.
    rewrite (filter_none _ (filter _ (SUMMARIES d))).
    2:{ intros r Hr. apply filter_In in Hr as [_ Hr].
        apply andb_false_iff. destruct (Z.eqb (SUMMARY_DATE r) today) eqn:Ed; [|left; reflexivity].
        right. apply String.eqb_neq. intros <-. cbn [andb] in Hr.
        apply negb_true_iff in Hr. rewrite (proj2 (existsb_eqb_In _ _) Hz) in Hr.
        discriminate. }
    cbn [app]. rewrite <- Hf in Hz. exact (new_rows_one today z pairs Hnd Hz).
Qed.

Lemma exc_map_pure {A B} (f : A -> exc B) (g : A -> B) (l : list A) :
  (forall x, f x = Ok (g x)) -> exc_map f l = Ok (map g l).
Proof.
  intros H. induction l as [|x l IH]; [reflexivity|].
  cbn [exc_map]. rewrite H. cbn [exc_bind]. rewrite IH. reflexivity.
Qed.

Lemma sum_zero (xs : list Q) : (forall x, In x xs -> x == 0)%Q -> (py_sum xs == 0)%Q.
Proof.
  intros H. unfold py_sum. rewrite fold_left_Qplus.
  assert (Hs : (fold_right Qplus 0 xs == 0)%Q).
  { induction xs as [|x xs IH]; cbn [fold_right]; [reflexivity|].
    assert (Hx := H x (or_introl eq_refl)).
    assert (Hr : (fold_right Qplus 0 xs == 0)%Q) by (apply IH; intros y Hy; apply H; right; exact Hy).
    lra. }
  lra.
Qed.

(** The row of ZIP [z] in [_fetch_today_vs_baseline]. *)
Lemma tvb_row_in (today : Z) (raw : list obs_record) (z : string) :
  let T := filter (fun o => Z.eqb (OBS_DATE o) today) raw in
  let B := filter (fun o => (today - 30 <=? OBS_DATE o) && (OBS_DATE o <=? today - 1)) raw in
  (exists o, In o raw /\ ZIP o = z /\ today - 30 <= OBS_DATE o <= today) ->
  In (mk_tvb z (group_avg GHI T z) (group_avg DNI T z) (group_avg DHI T z)
              (group_avg CLOUD_COVER T z)
              (group_avg GHI B z) (group_avg DNI B z) (group_avg DHI B z)
              (group_avg CLOUD_COVER B z))
     (_fetch_today_vs_baseline today raw).
Proof.
  cbv zeta. intros (o & Ho & <- & Hd). unfold _fetch_today_vs_baseline. cbv zeta.
  apply in_map_iff. exists (ZIP o). split; [reflexivity|].
  apply py_sorted_set_In, in_app_iff.
  destruct (Z.eq_dec (OBS_DATE o) today) as [E|E]; [left|right]; apply in_map, filter_In;
    split; try exact Ho.
  - apply Z.eqb_eq, E.
  - apply andb_true_iff. split; apply Z.leb_le; lia.
Qed.

(** X16: in heuristic mode (no narrative service configured), an
    insights run writes for a ZIP with baseline rows but no row today the
    text "no data today yet", and for a ZIP with rows today whose baseline
    rows all have GHI 0, or that has none, the "first day of data" text:
    a baseline made only of fallback rows counts as no baseline. *)
Theorem generate_insights_heuristic_texts (ap : prompt -> exc string) (today : Z) (d : db) :
  let raw := SOLAR_OBS (wh d) in
  exists d', generate_insights false ap today d = Ok d'
  /\ (forall z, (exists o, In o raw /\ ZIP o = z /\ today - 30 <= OBS_DATE o <= today - 1) ->
        (~ exists o, In o raw /\ ZIP o = z /\ OBS_DATE o = today) ->
        In (mk_summary today z (Heuristic (NoDataYet z))) (SUMMARIES d'))
  /\ (forall z, (exists o, In o raw /\ ZIP o = z /\ OBS_DATE o = today) ->
        (forall o, In o raw -> ZIP o = z -> today - 30 <= OBS_DATE o <= today - 1 ->
                   (GHI o == 0)%Q) ->
        exists g dni cloud,
          In (mk_summary today z (Heuristic (FirstDay z g dni cloud))) (SUMMARIES d')).
Proof.
  cbv zeta. set (raw := SOLAR_OBS (wh d)).
  set (T := filter (fun o => Z.eqb (OBS_DATE o) today) raw).
  set (B := filter (fun o => (today - 30 <=? OBS_DATE o) && (OBS_DATE o <=? today - 1)) raw).
  set (h := fun row : tvb_row => (t_ZIP row, Heuristic (heuristic_summary (t_ZIP row)
              (GHI_TODAY row) (DNI_TODAY row) (CLOUD_TODAY row)
              (_pct_change (GHI_TODAY row) (GHI_30D row))))).
  set (data := _fetch_today_vs_baseline today raw).
  assert (Hp : exc_map (summary_pair false ap) data = Ok (map h data))
    by (apply exc_map_pure; intros row; reflexivity).
  exists (mk_db (upsert_forecast_7d today (wh d)) (_upsert_summaries today (map h data) (SUMMARIES d))).
  split; [unfold generate_insights; cbv zeta; fold raw data; rewrite Hp; reflexivity|].
  cbn [SUMMARIES]. rewrite upsert_summaries_eq.
  assert (Hnew : forall z, (exists o, In o raw /\ ZIP o = z /\ today - 30 <= OBS_DATE o <= today) ->
            In (mk_summary today z (Heuristic (heuristic_summary z (group_avg GHI T z)
                  (group_avg DNI T z) (group_avg CLOUD_COVER T z)
                  (_pct_change (group_avg GHI T z) (group_avg GHI B z)))))
               (filter (fun r => negb (Z.eqb (SUMMARY_DATE r) today
                    && existsb (String.eqb (s_ZIP r)) (map fst (map h data)))) (SUMMARIES d)
                ++ map (fun p => mk_summary today (fst p) (snd p)) (map h data))).
  { intros z Hz. apply in_or_app. right. rewrite map_map. apply in_map_iff.
    eexists; split; [|exact (tvb_row_in today raw z Hz)]. reflexivity. }
  split.
  - intros z (o & Ho & Hz & Hd) Hnt.
    assert (HT : group_avg GHI T z = None).
    { apply group_avg_None. intros (o' & Ho' & Hz'). apply Hnt. exists o'.
      unfold T in Ho'. apply filter_In in Ho' as [Ho' Hd']. apply Z.eqb_eq in Hd'.
      split; [exact Ho'|]. split; [exact Hz'|exact Hd']. }
    specialize (Hnew z ltac:(exists o; split; [exact Ho|]; split; [exact Hz|lia])).
    rewrite HT in Hnew. exact Hnew.
  - intros z (o & Ho & Hz & Hd) Hzero.
    assert (HT : group_avg GHI T z <> None).
    { rewrite group_avg_None. intros H. apply H. exists o.
      split; [apply filter_In; split; [exact Ho | apply Z.eqb_eq, Hd] | exact Hz]. }
    assert (HB : _pct_change (group_avg GHI T z) (group_avg GHI B z) = None).
    { unfold group_avg at 2.
      destruct (filter (fun o => String.eqb (ZIP o) z) B) as [|o1 g1] eqn:E;
        destruct (group_avg GHI T z); try reflexivity.
      cbn [_pct_change].
      replace (Qeq_bool (sql_avg (map GHI (o1 :: g1))) 0) with true; [reflexivity|].
      symmetry. apply Qeq_bool_iff. unfold sql_avg. rewrite sum_zero; [apply Qmult_0_l|].
      intros x Hx. apply in_map_iff in Hx as (o2 & <- & Ho2).
      rewrite <- E in Ho2. apply filter_In in Ho2 as [Ho2 Hz2].
      unfold B in Ho2. apply filter_In in Ho2 as [Ho2 Hd2].
      apply andb_true_iff in Hd2 as [H1 H2]. apply Z.leb_le in H1, H2.
      apply (Hzero o2 Ho2); [apply String.eqb_eq, Hz2 | lia]. }
    specialize (Hnew z ltac:(exists o; split; [exact Ho|]; split; [exact Hz|lia])).
    rewrite HB in Hnew. destruct (group_avg GHI T z) as [g|]; [|congruence].
    exists g, (or0 (group_avg DNI T z)), (or0 (group_avg CLOUD_COVER T z)). exact Hnew.
Qed.

(** X18: when there is no percent change (no baseline, a zero baseline, or
    no data today), the summary generator returns the heuristic text even
    when the narrative service is configured: formatting the missing
    percentage fails before the service is called. *)
Theorem aoai_without_pct_heuristic (U : bool) (ap : prompt -> exc string) (zip_code : string)
    (ghi dni cloud : option Q) :
  aoai_summary_or_heuristic U ap zip_code ghi dni cloud None
  = Ok (Heuristic (heuristic_summary zip_code ghi dni cloud None)).
Proof. unfold aoai_summary_or_heuristic. destruct U; reflexivity. Qed.


Local Open Scope string_scope.


Local Close Scope string_scope.

(* ------------------------------------------------------------------ *)
(** ** [/status] *)

Lemma find_map_key {B} (f : string -> B) (key : B -> string) (l : list string) (z : string) :
  (forall x, key (f x) = x) ->
  find (fun r => String.eqb (key r) z) (map f l)
  = if existsb (String.eqb z) l then Some (f z) else None.
Proof.
  intros Hk. induction l as [|x l IH]; [reflexivity|]. cbn [map find existsb].
  rewrite Hk, (String.eqb_sym z x). destruct (String.eqb x z) eqn:E.
  - apply String.eqb_eq in E. subst. reflexivity.
  - exact IH.
Qed.

Lemma fold_max_ub (l : list Z) (a : Z) :
  a <= fold_left Z.max l a /\ (forall x, In x l -> x <= fold_left Z.max l a).
Proof.
  revert a. induction l as [|y l IH]; intros a; cbn [fold_left]; [split; [lia|intros x []]|].
  destruct (IH (Z.max a y)) as [H1 H2]. split; [lia|].
  intros x [<-|Hx]; [lia|]. apply H2, Hx.
Qed.

Lemma fold_max_in (l : list Z) (a : Z) :
  fold_left Z.max l a = a \/ In (fold_left Z.max l a) l.
Proof.
  revert a. induction l as [|y l IH]; intros a; cbn [fold_left]; [left; reflexivity|].
  destruct (IH (Z.max a y)) as [H|H]; [|right; right; exact H].
  rewrite H. destruct (Z.max_spec a y) as [[_ ->]|[_ ->]]; [right; left; reflexivity|left; reflexivity].
Qed.

Lemma max_date_spec (ds : list Z) (t : Z) :
  ds <> [] -> (max_date ds = t <-> In t ds /\ forall x, In x ds -> x <= t).
Proof.
  destruct ds as [|d r]; [congruence|]. intros _. cbn [max_date].
  destruct (fold_max_ub r d) as [H1 H2]. split.
  - intros <-. split.
    + destruct (fold_max_in r d) as [H|H]; [rewrite H; left; reflexivity|right; exact H].
    + intros x [<-|Hx]; [exact H1 | apply H2, Hx].
  - intros [Hin Hall]. apply Z.le_antisymm.
    + destruct (fold_max_in r d) as [H|H]; [rewrite H; apply Hall; left; reflexivity|].
      apply Hall. right. exact H.
    + destruct Hin as [<-|Hin]; [exact H1 | apply H2, Hin].
Qed.

Lemma length_filter_pos {A} (f : A -> bool) (l : list A) :
  (0 < List.length (filter f l))%nat <-> exists x, In x l /\ f x = true.
Proof.
  split.
  - intros H. destruct (filter f l) as [|x r] eqn:E; [cbn in H; lia|].
    exists x. apply filter_In. rewrite E. left. reflexivity.
  - intros (x & Hx & Hf). assert (Hin : In x (filter f l)) by (apply filter_In; auto).
    destruct (filter f l); [destruct Hin | cbn; lia].
Qed.

Lemma ingest_flag_iff (raw_today utc_today : Z) (raw : list obs_record) (z : string) :
  match find (fun r => String.eqb (i_ZIP r) z) (status_ingestion raw_today raw) with
  | Some r => (0 <? TODAY_ROWS r) && Z.eqb (LAST_OBS r) utc_today
  | None => false
  end = true
  <-> (exists o, In o raw /\ ZIP o = z /\ OBS_DATE o = raw_today)
      /\ (exists o, In o raw /\ ZIP o = z /\ OBS_DATE o = utc_today)
      /\ (forall o, In o raw -> ZIP o = z -> OBS_DATE o <= utc_today).
Proof.
  unfold status_ingestion. rewrite (find_map_key _ i_ZIP) by reflexivity.
  destruct (existsb (String.eqb z) (py_sorted_set (map ZIP raw))) eqn:Ex.
  - cbn [i_ZIP TODAY_ROWS LAST_OBS].
    set (g := filter (fun o => String.eqb (ZIP o) z) raw).
    assert (Hg : forall o, In o g <-> In o raw /\ ZIP o = z).
    { intros o. unfold g. rewrite filter_In, String.eqb_eq. reflexivity. }
    assert (Hne : map OBS_DATE g <> []).
    { apply existsb_eqb_In, py_sorted_set_In, in_map_iff in Ex as (o & Hz & Ho).
      intros H. apply map_eq_nil in H. assert (Hin : In o g) by (apply Hg; auto).
      rewrite H in Hin. exact Hin. }
    rewrite andb_true_iff, Z.ltb_lt, Z.eqb_eq, (max_date_spec _ _ Hne).
    assert (Hc : forall n : nat, 0 < Z.of_nat n <-> (0 < n)%nat) by (intros; lia).
    rewrite Hc.
    rewrite length_filter_pos. split.
    + intros [(o & Ho & Hd) [Hu Hall]]. apply Z.eqb_eq in Hd. apply Hg in Ho as [Ho Hz].
      split; [exists o; auto|]. split.
      * apply in_map_iff in Hu as (o' & Hd' & Ho'). apply Hg in Ho' as [Ho' Hz'].
        exists o'. auto.
      * intros o' Ho' Hz'. apply Hall, in_map, Hg. auto.
    + intros [(o & Ho & Hz & Hd) [(u & Hu & Huz & Hud) Hall]]. split.
      * exists o. split; [apply Hg; auto | apply Z.eqb_eq, Hd].
      * split; [rewrite <- Hud; apply in_map, Hg; auto|].
        intros x Hx. apply in_map_iff in Hx as (o' & <- & Ho'). apply Hg in Ho' as [Ho' Hz'].
        apply Hall; assumption.
  - split; [discriminate|]. intros [(o & Ho & Hz & _) _].
    assert (Hin : In z (py_sorted_set (map ZIP raw)))
      by (apply py_sorted_set_In, in_map_iff; exists o; auto).
    apply existsb_eqb_In in Hin. congruence.
Qed.

Lemma forecast_flag_iff (fc : list fcst_row) (z : string) :
  match find (fun r => String.eqb (c_ZIP r) z) (status_forecast fc) with
  | Some r => 7 <=? DAYS r
  | None => false
  end = true
  <-> (7 <= List.length (filter (fun r => String.eqb (f_ZIP r) z) fc))%nat.
Proof.
  unfold status_forecast. rewrite (find_map_key _ c_ZIP) by reflexivity.
  destruct (existsb (String.eqb z) (py_sorted_set (map f_ZIP fc))) eqn:Ex.
  - cbn [DAYS]. rewrite Z.leb_le. lia.
  - rewrite (filter_none _ fc); [cbn; split; [discriminate|lia]|].
    intros r Hr. apply not_true_iff_false. intros Hz. apply String.eqb_eq in Hz.
    assert (Hin : In z (py_sorted_set (map f_ZIP fc)))
      by (apply py_sorted_set_In, in_map_iff; exists r; auto).
    apply existsb_eqb_In in Hin. congruence.
Qed.


(** X21: with the ZIP_LIST setting present, after an ingestion run dated
    [today] by the host's [date.today()], on a day with no RAW row dated
    later, [/status] lists the configured ZIPs and flags every one of them
    INGEST_TODAY, whatever the weather and geocoding services answered,
    provided Snowflake's [CURRENT_DATE()] for the RAW query and the host's
    UTC date are that same [today]. *)
Theorem status_after_ingest (g : string -> exc json) (m : Q -> Q -> exc json)
    (f : json -> exc Q) (today raw_today mart_today utc_today : Z) (v : string)
    (w : warehouse) (S : list summary_row)
    (Hraw : raw_today = today) (Hutc : utc_today = today)
    (Hfut : forall o, In o (SOLAR_OBS w) -> OBS_DATE o <= today) :
  exists w', fetch_solar_data g m f today (ZIP_LIST_setting (Some v)) None w = Ok w'
  /\ map z_ZIP (per_zip (snd (status_api raw_today mart_today utc_today (Some v) (mk_db w' S))))
     = ZIP_LIST_setting (Some v)
  /\ Forall (fun fl => INGEST_TODAY fl = true)
            (per_zip (snd (status_api raw_today mart_today utc_today (Some v) (mk_db w' S)))).
Proof.
  subst raw_today utc_today.
  change (ZIP_LIST_setting (Some v)) with (ZIP_LIST_of_env v).
  destruct (fetch_all_records g m f today (ZIP_LIST_of_env v)) as (rows & Hrows & Hz & Hd).
  rewrite map_py_strip_env in Hz. rewrite Forall_forall in Hd.
  assert (Hw : exists w', fetch_solar_data g m f today (ZIP_LIST_of_env v) None w = Ok w'
                          /\ SOLAR_OBS w' = SOLAR_OBS w ++ rows).
  { unfold fetch_solar_data. rewrite Hrows. cbn [exc_bind]. unfold insert_rows.
    destruct rows as [|r rs]; eexists; (split; [reflexivity|]);
      [symmetry; apply app_nil_r | reflexivity]. }
  destruct Hw as (w' & Hw' & Hs). exists w'. split; [exact Hw'|].
  unfold status_api. cbv zeta. cbn [snd per_zip wh].
  change (status_allowed (Some v)) with (ZIP_LIST_of_env v).
  split; [rewrite map_map; cbn [z_ZIP]; apply map_id|].
  apply Forall_map, Forall_forall. intros z Hzin. cbn [INGEST_TODAY].
  apply ingest_flag_iff. rewrite Hs.
  assert (Hex : exists o, In o (SOLAR_OBS w ++ rows) /\ ZIP o = z /\ OBS_DATE o = today).
  { rewrite <- Hz in Hzin. apply in_map_iff in Hzin as (o & Ho & Hin).
    exists o. split; [apply in_or_app; right; exact Hin|]. split; [exact Ho | apply Hd, Hin]. }
  split; [exact Hex|]. split; [exact Hex|].
  - intros o Ho _. apply in_app_or in Ho as [Ho|Ho]; [apply Hfut, Ho | rewrite (Hd o Ho); lia].
Qed.

Lemma length_filter_flat_map {A B} (p : B -> bool) (F : A -> list B) (L : list A) (a : A) :
  In a L -> (List.length (filter p (F a)) <= List.length (filter p (flat_map F L)))%nat.
Proof.
  induction L as [|x L IH]; intros Ha; [destruct Ha|].
  cbn [flat_map]. rewrite filter_app, length_app.
  destruct Ha as [<-|Ha]; [lia|]. specialize (IH Ha). lia.
Qed.

(** X22: after the forecast writer runs, [/status] flags FORECAST_7D for
    every ZIP of its allow-list that has a RAW row dated [today - 6] or
    later. *)
Theorem status_after_forecast (today raw_today mart_today utc_today : Z) (env : option string)
    (w : warehouse) (S : list summary_row) :
  Forall (fun fl =>
      (exists o, In o (SOLAR_OBS w) /\ ZIP o = z_ZIP fl /\ today - 6 <= OBS_DATE o) ->
      FORECAST_7D_OK fl = true)
    (per_zip (snd (status_api raw_today mart_today utc_today env
                               (mk_db (upsert_forecast_7d today w) S)))).
Proof.
  unfold status_api. cbv zeta. cbn [snd per_zip wh].
  apply Forall_map, Forall_forall. intros z _ (o & Ho & Hz & Hd). cbn [FORECAST_7D_OK].
  apply forecast_flag_iff.
  unfold upsert_forecast_7d. cbv zeta. cbn [FORECAST_7D].
  set (W := filter (fun o => today - 6 <=? OBS_DATE o) (SOLAR_OBS w)).
  set (F := fun l : string * Q => map (fun d => mk_fcst (fst l) d (snd l) "7d_ma"%string)
                                      (gen_dates today 7)).
  set (a := (z, sql_avg (map GHI (filter (fun o => String.eqb (ZIP o) z) W)))).
  assert (Ha : In a (group_avg_ghi W)).
  { unfold group_avg_ghi. apply in_map_iff. exists z. split; [reflexivity|].
    apply nodup_In, in_map_iff. exists o. split; [exact Hz|].
    apply filter_In. split; [exact Ho | apply Z.leb_le, Hd]. }
  rewrite filter_app, length_app.
  assert (H7 := length_filter_flat_map (fun r => String.eqb (f_ZIP r) z) F _ a Ha).
  assert (Hfa : filter (fun r => String.eqb (f_ZIP r) z) (F a) = F a).
  { apply filter_all. intros r Hr. unfold F in Hr. apply in_map_iff in Hr as (d0 & <- & _).
    apply String.eqb_refl. }
  rewrite Hfa in H7. unfold F at 1 in H7. rewrite length_map in H7.
  unfold gen_dates in H7. rewrite length_map, length_seq in H7. lia.
Qed.

Local Open Scope string_scope.

(** Witness of X21: an empty warehouse, ZIP_LIST "93727,93637" and both
    services failing. *)
Lemma status_after_ingest_witness :
  exists w', fetch_solar_data (fun _ => Raise HTTPError) (fun _ _ => Raise HTTPError)
               (fun _ => Raise ValueError) 739000 (ZIP_LIST_setting (Some "93727,93637")) None
               (mk_wh [] []) = Ok w'
  /\ map z_ZIP (per_zip (snd (status_api 739000 738999 739000 (Some "93727,93637") (mk_db w' []))))
     = ["93727"; "93637"]
  /\ Forall (fun fl => INGEST_TODAY fl = true)
            (per_zip (snd (status_api 739000 738999 739000 (Some "93727,93637") (mk_db w' [])))).
Proof.
  destruct (status_after_ingest (fun _ => Raise HTTPError) (fun _ _ => Raise HTTPError)
              (fun _ => Raise ValueError) 739000 739000 738999 739000 "93727,93637"
              (mk_wh [] []) [] eq_refl eq_refl
              (fun o Ho => match Ho with end)) as (w' & H1 & H2 & H3).
  exists w'. split; [exact H1|]. split; [rewrite H2; reflexivity | exact H3].
Defined.

Local Close Scope string_scope.
